(** * The data-packages service of the cache tier

    A shallow embedding of
    [packages/cache-service/src/data-packages/data-packages.service.ts]:
    the two read strategies over the persisted packages, the statistics
    query, and the normalisation of received packages, with the properties
    the service's description states about them.

    Conventions of the embedding.
    - A JavaScript [number] holding a millisecond timestamp is a [Z]; a
      [Date] is the [Z] of its [getTime()], so [new Date(t)] and
      [.getTime()] are the identity.  A [$count] and an array length are
      [nat].
    - A JavaScript object used as a map ([DataPackagesResponse],
      [DataPackagesStatsResponse]) is a [gmap string _]; keys are feed ids
      and EVM addresses, none of which is a property name of
      [Object.prototype].
    - The collection is the list of its documents in the order in which the
      [$match] stage of a pipeline meets them.  [Date.now()] and that list
      are explicit arguments of every query.
    - A raised exception is the [Throw] branch of [Result]. *)

From stdpp Require Import base option list strings gmap sorting.

(** ** What the service imports *)

(** The constants and the configuration come from modules outside this file
    ([@redstone-finance/protocol], [../common/errors], [../config]); the
    payload of a data point is opaque to the service. *)
Class Imports := {
  Value : Type;
  ALL_FEEDS_KEY : string;
  EMPTY_DATA_PACKAGE_RESPONSE_ERROR_CODE : Z;
  maxAllowedTimestampDelay : Z;
}.

(** ** Data model *)

Record DataPoint `{Imports} := {
  point_dataFeedId : string;
  point_value : Value;
}.

Record ReceivedDataPackage `{Imports} := {
  received_dataPoints : list DataPoint;
  received_timestampMilliseconds : Z;
  received_signature : string;
}.

Record CachedDataPackage `{Imports} := {
  dataPoints : list DataPoint;
  timestampMilliseconds : Z;
  signature : string;
  dataServiceId : string;
  signerAddress : string;
  dataFeedId : string;
  isSignatureValid : bool;
}.

(** [recoverDeserializedSignerAddress] of the protocol package: the address
    the signature recovers to, [None] when the call throws. *)
Class SignerRecovery `{Imports} :=
  recoverDeserializedSignerAddress : ReceivedDataPackage → option string.

Inductive Exception :=
  | HttpException (message : string) (status : Z)
  | BadRequestException (message : string).

Inductive Result (A : Type) :=
  | Ok (a : A)
  | Throw (e : Exception).
Arguments Ok {A} a.
Arguments Throw {A} e.

Abbreviation DataPackagesResponse := (gmap string (list CachedDataPackage)).

(** [_id] of [DataPackageDocumentMostRecentAggregated]. *)
Record MostRecentId := {
  id_signerAddress : string;
  id_dataFeedId : string;
}.

(** A document the pipeline of strategy A produces. *)
Record DataPackageDocumentMostRecentAggregated `{Imports} := {
  mr_id : MostRecentId;
  mr_timestampMilliseconds : Z;
  mr_signature : string;
  mr_dataPoints : list DataPoint;
  mr_dataServiceId : string;
  mr_dataFeedId : string;
  mr_isSignatureValid : bool;
}.

(** A document the pipeline of strategy B produces: [_id] is the shared
    timestamp, the other fields are the parallel arrays [$push] fills. *)
Record DataPackageDocumentAggregated `{Imports} := {
  ag_id_timestampMilliseconds : Z;
  ag_count : nat;
  ag_signatures : list string;
  ag_dataPoints : list (list DataPoint);
  ag_dataFeedIds : list string;
  ag_signerAddress : list string;
  ag_isSignatureValid : list bool;
}.

Record StatsRequestParams := {
  fromTimestamp : Z;
  toTimestamp : Z;
}.

(** A node of the oracle registry state. *)
Record RedstoneOraclesNode := {
  evmAddress : string;
  node_dataServiceId : string;
  name : string;
}.

(** [oraclesState.nodes]: the nodes under their registry keys, in the
    enumeration order of the object. *)
Record RedstoneOraclesState := {
  nodes : list (string * RedstoneOraclesNode);
}.

Record DataPackagesStatsEntry := {
  stats_dataServiceId : string;
  verifiedDataPackagesCount : nat;
  nodeName : string;
}.

Abbreviation DataPackagesStatsResponse := (gmap string DataPackagesStatsEntry).

(** ** The aggregation stages *)

Module Pipeline.

(** [$match] of [getDataPackagesFromDbByTimestampOrLatest].  The test
    [timestamp ? ... : ...] is on the truthiness of the number. *)
Definition matchByTimestampOrLatest `{Imports}
    (now : Z) (serviceId : string) (timestamp : option Z)
    (doc : CachedDataPackage) : bool :=
  bool_decide (dataServiceId doc = serviceId) &&
  match timestamp with
  | Some t =>
      if bool_decide (t ≠ 0%Z)
      then bool_decide (timestampMilliseconds doc = t)
      else bool_decide
             (now - maxAllowedTimestampDelay ≤ timestampMilliseconds doc)%Z
  | None =>
      bool_decide
        (now - maxAllowedTimestampDelay ≤ timestampMilliseconds doc)%Z
  end.

(** [$match] of [getLatestDataPackagesFromDbWithSameTimestamp]. *)
Definition matchLatest `{Imports}
    (now : Z) (serviceId : string) (doc : CachedDataPackage) : bool :=
  bool_decide (dataServiceId doc = serviceId) &&
  bool_decide (now - maxAllowedTimestampDelay ≤ timestampMilliseconds doc)%Z.

Definition idOf `{Imports} (doc : CachedDataPackage) : MostRecentId :=
  {| id_signerAddress := signerAddress doc;
     id_dataFeedId := dataFeedId doc |}.

#[global] Instance MostRecentId_eq_dec : EqDecision MostRecentId.
Proof. solve_decision. Defined.

(** The accumulators [{ $first: ... }] of a group, taken from the first
    document that opens it. *)
Definition firstOf `{Imports} (doc : CachedDataPackage)
    : DataPackageDocumentMostRecentAggregated :=
  {| mr_id := idOf doc;
     mr_timestampMilliseconds := timestampMilliseconds doc;
     mr_signature := signature doc;
     mr_dataPoints := dataPoints doc;
     mr_dataServiceId := dataServiceId doc;
     mr_dataFeedId := dataFeedId doc;
     mr_isSignatureValid := isSignatureValid doc |}.

(** One document entering [$group] with [_id: {signerAddress, dataFeedId}]
    and [$first] accumulators: a group that exists keeps what it has. *)
Fixpoint accumulateFirst `{Imports} (doc : CachedDataPackage)
    (groups : list DataPackageDocumentMostRecentAggregated)
    : list DataPackageDocumentMostRecentAggregated :=
  match groups with
  | [] => [firstOf doc]
  | g :: rest =>
      if bool_decide (mr_id g = idOf doc) then g :: rest
      else g :: accumulateFirst doc rest
  end.

Definition groupBySignerAndFeed `{Imports} (docs : list CachedDataPackage)
    : list DataPackageDocumentMostRecentAggregated :=
  foldl (λ groups doc, accumulateFirst doc groups) [] docs.

(** [$sort: { timestampMilliseconds: -1 }]. *)
Definition newerFirst `{Imports}
    : relation DataPackageDocumentMostRecentAggregated :=
  λ g1 g2, (mr_timestampMilliseconds g2 ≤ mr_timestampMilliseconds g1)%Z.

#[global] Instance newerFirst_dec `{Imports} g1 g2
    : Decision (newerFirst g1 g2).
Proof. unfold newerFirst. apply _. Defined.

(** The documents [$match] of strategy A lets through, in store order. *)
Definition eligibleA `{Imports}
    (now : Z) (store : list CachedDataPackage)
    (serviceId : string) (timestamp : option Z) : list CachedDataPackage :=
  filter (λ doc, matchByTimestampOrLatest now serviceId timestamp doc) store.

Definition aggregateMostRecent `{Imports}
    (now : Z) (store : list CachedDataPackage)
    (serviceId : string) (timestamp : option Z)
    : list DataPackageDocumentMostRecentAggregated :=
  merge_sort newerFirst
    (groupBySignerAndFeed (eligibleA now store serviceId timestamp)).

(** The accumulators [$count] and [$push] of a group opened by [doc]. *)
Definition openGroup `{Imports} (doc : CachedDataPackage)
    : DataPackageDocumentAggregated :=
  {| ag_id_timestampMilliseconds := timestampMilliseconds doc;
     ag_count := 1;
     ag_signatures := [signature doc];
     ag_dataPoints := [dataPoints doc];
     ag_dataFeedIds := [dataFeedId doc];
     ag_signerAddress := [signerAddress doc];
     ag_isSignatureValid := [isSignatureValid doc] |}.

Definition pushInto `{Imports} (g : DataPackageDocumentAggregated)
    (doc : CachedDataPackage) : DataPackageDocumentAggregated :=
  {| ag_id_timestampMilliseconds := ag_id_timestampMilliseconds g;
     ag_count := S (ag_count g);
     ag_signatures := ag_signatures g ++ [signature doc];
     ag_dataPoints := ag_dataPoints g ++ [dataPoints doc];
     ag_dataFeedIds := ag_dataFeedIds g ++ [dataFeedId doc];
     ag_signerAddress := ag_signerAddress g ++ [signerAddress doc];
     ag_isSignatureValid := ag_isSignatureValid g ++ [isSignatureValid doc] |}.

(** One document entering [$group] with [_id: {timestampMilliseconds}]. *)
Fixpoint accumulatePush `{Imports} (doc : CachedDataPackage)
    (groups : list DataPackageDocumentAggregated)
    : list DataPackageDocumentAggregated :=
  match groups with
  | [] => [openGroup doc]
  | g :: rest =>
      if bool_decide (ag_id_timestampMilliseconds g = timestampMilliseconds doc)
      then pushInto g doc :: rest
      else g :: accumulatePush doc rest
  end.

Definition groupByTimestamp `{Imports} (docs : list CachedDataPackage)
    : list DataPackageDocumentAggregated :=
  foldl (λ groups doc, accumulatePush doc groups) [] docs.

(** [$sort: { count: -1, "_id.timestampMilliseconds": -1 }]. *)
Definition moreThenNewerFirst `{Imports}
    : relation DataPackageDocumentAggregated :=
  λ g1 g2,
    ag_count g2 < ag_count g1 ∨
    (ag_count g2 = ag_count g1 ∧
     (ag_id_timestampMilliseconds g2 ≤ ag_id_timestampMilliseconds g1)%Z).

#[global] Instance moreThenNewerFirst_dec `{Imports} g1 g2
    : Decision (moreThenNewerFirst g1 g2).
Proof. unfold moreThenNewerFirst. apply _. Defined.

(** The whole pipeline of strategy B, [$limit: 1] included. *)
(** The documents [$match] of strategy B lets through, in store order. *)
Definition eligibleB `{Imports}
    (now : Z) (store : list CachedDataPackage) (serviceId : string)
    : list CachedDataPackage :=
  filter (λ doc, matchLatest now serviceId doc) store.

Definition aggregateSameTimestamp `{Imports}
    (now : Z) (store : list CachedDataPackage) (serviceId : string)
    : list DataPackageDocumentAggregated :=
  take 1
    (merge_sort moreThenNewerFirst
       (groupByTimestamp (eligibleB now store serviceId))).

(** The filter of [DataPackage.countDocuments] in the statistics query. *)
Definition matchVerifiedOfNode `{Imports}
    (params : StatsRequestParams) (node : RedstoneOraclesNode)
    (doc : CachedDataPackage) : bool :=
  bool_decide (fromTimestamp params ≤ timestampMilliseconds doc)%Z &&
  bool_decide (timestampMilliseconds doc ≤ toTimestamp params)%Z &&
  bool_decide (dataServiceId doc = node_dataServiceId node) &&
  bool_decide (signerAddress doc = evmAddress node) &&
  bool_decide (isSignatureValid doc = true).

Definition countDocuments `{Imports}
    (store : list CachedDataPackage) (params : StatsRequestParams)
    (node : RedstoneOraclesNode) : nat :=
  length (filter (λ doc, matchVerifiedOfNode params node doc) store).

End Pipeline.

(** ** The service *)

Module DataPackagesService.

(** [if (!response[dataFeedId]) response[dataFeedId] = [];
     response[dataFeedId].push(dataPackage)]. *)
Definition pushToFeed `{Imports} (response : DataPackagesResponse)
    (feedId : string) (dataPackage : CachedDataPackage)
    : DataPackagesResponse :=
  let response' :=
    match response !! feedId with
    | None => <[feedId := []]> response
    | Some _ => response
    end in
  <[feedId := default [] (response' !! feedId) ++ [dataPackage]]> response'.

(** [{ ...rest, timestampMilliseconds, dataFeedId, signerAddress }]: the
    entry of the response made from a document of strategy A. *)
Definition entryOfMostRecent `{Imports}
    (dataPackage : DataPackageDocumentMostRecentAggregated)
    : CachedDataPackage :=
  {| dataPoints := mr_dataPoints dataPackage;
     timestampMilliseconds := mr_timestampMilliseconds dataPackage;
     signature := mr_signature dataPackage;
     dataServiceId := mr_dataServiceId dataPackage;
     signerAddress := id_signerAddress (mr_id dataPackage);
     dataFeedId := id_dataFeedId (mr_id dataPackage);
     isSignatureValid := mr_isSignatureValid dataPackage |}.

(** The body of the loop that parses the answer of strategy A. *)
Definition parseMostRecent `{Imports} (response : DataPackagesResponse)
    (dataPackage : DataPackageDocumentMostRecentAggregated)
    : DataPackagesResponse :=
  pushToFeed response (id_dataFeedId (mr_id dataPackage))
             (entryOfMostRecent dataPackage).

Definition emptyResponse `{Imports} : Exception :=
  HttpException "Data packages response is empty"
                EMPTY_DATA_PACKAGE_RESPONSE_ERROR_CODE.

(** Strategy A. *)
Definition getDataPackagesFromDbByTimestampOrLatest `{Imports}
    (now : Z) (store : list CachedDataPackage)
    (serviceId : string) (timestamp : option Z)
    : Result DataPackagesResponse :=
  let groupedDataPackages :=
    Pipeline.aggregateMostRecent now store serviceId timestamp in
  if bool_decide (length groupedDataPackages = 0) then Throw emptyResponse
  else Ok (foldl parseMostRecent ∅ groupedDataPackages).

Definition getDataPackagesByTimestamp `{Imports}
    (now : Z) (store : list CachedDataPackage)
    (serviceId : string) (timestamp : Z) : Result DataPackagesResponse :=
  getDataPackagesFromDbByTimestampOrLatest now store serviceId (Some timestamp).

Definition isSignerAddressAlreadyInDbResponseForDataFeed `{Imports}
    (signer : string)
    (fetchedPackagesForDataFeed : option (list CachedDataPackage)) : bool :=
  match fetchedPackagesForDataFeed with
  | None => false
  | Some packages =>
      existsb (λ dataPackage, bool_decide (signerAddress dataPackage = signer))
              packages
  end.

(** One turn of the loop that parses the answer of strategy B.  Reading an
    array past its end gives [undefined] in the source, which the typed
    records cannot hold: the turn is then [None]. *)
Definition parseSameTimestampAt `{Imports} (serviceId : string)
    (group : DataPackageDocumentAggregated)
    (response : DataPackagesResponse) (i : nat)
    : option DataPackagesResponse :=
  feedId ← ag_dataFeedIds group !! i;
  signer ← ag_signerAddress group !! i;
  if isSignerAddressAlreadyInDbResponseForDataFeed signer (response !! feedId)
  then Some response
  else
    points ← ag_dataPoints group !! i;
    sig ← ag_signatures group !! i;
    valid ← ag_isSignatureValid group !! i;
    Some (pushToFeed response feedId
            {| dataPoints := points;
               timestampMilliseconds := ag_id_timestampMilliseconds group;
               signature := sig;
               dataServiceId := serviceId;
               signerAddress := signer;
               dataFeedId := feedId;
               isSignatureValid := valid |}).

(** [for (let i = 0; i < group.count; i++) ...]. *)
Definition parseSameTimestamp `{Imports} (serviceId : string)
    (group : DataPackageDocumentAggregated) : option DataPackagesResponse :=
  foldl (λ response i, response ≫= λ r, parseSameTimestampAt serviceId group r i)
        (Some ∅) (seq 0 (ag_count group)).

(** Strategy B.  The outer [option] is [None] only when the loop read an
    array past its end. *)
Definition getLatestDataPackagesFromDbWithSameTimestamp `{Imports}
    (now : Z) (store : list CachedDataPackage) (serviceId : string)
    : option (Result DataPackagesResponse) :=
  match Pipeline.aggregateSameTimestamp now store serviceId with
  | [] => Some (Throw emptyResponse)
  | dataPackagesWithSameTimestamp :: _ =>
      Ok <$> parseSameTimestamp serviceId dataPackagesWithSameTimestamp
  end.

Definition Object_values {A} (object : list (string * A)) : list A :=
  object.*2.

Definition getDataPackagesStats `{Imports}
    (oraclesState : RedstoneOraclesState) (store : list CachedDataPackage)
    (statsRequestParams : StatsRequestParams)
    : Result DataPackagesStatsResponse :=
  if bool_decide (toTimestamp statsRequestParams
                  - fromTimestamp statsRequestParams > 7200000)%Z
  then Throw (BadRequestException
                "Too big search period. Can not be bigger than 7_200_000")
  else
    let countsPerNode :=
      (λ node, (node, Pipeline.countDocuments store statsRequestParams node))
        <$> Object_values (nodes oraclesState) in
    Ok (foldl (λ (stats : DataPackagesStatsResponse) countPerNode,
                 <[evmAddress countPerNode.1 :=
                     {| stats_dataServiceId := node_dataServiceId countPerNode.1;
                        verifiedDataPackagesCount := countPerNode.2;
                        nodeName := name countPerNode.1 |}]> stats)
              ∅ countsPerNode).

(** [try { return recover(...) === signerAddress } catch { return false }]. *)
Definition isSignatureValid `{SignerRecovery}
    (receivedDataPackage : ReceivedDataPackage) (signer : string) : bool :=
  match recoverDeserializedSignerAddress receivedDataPackage with
  | Some address => bool_decide (address = signer)
  | None => false
  end.

(** The fields of [CachedDataPackage] in the order of their declaration:
    data points, timestamp, signature, data service, signer, feed, flag. *)
Definition prepareDataPackageForSaving `{SignerRecovery}
    (receivedDataPackage : ReceivedDataPackage)
    (signer : string) (serviceId : string) : CachedDataPackage :=
  let valid := isSignatureValid receivedDataPackage signer in
  Build_CachedDataPackage _
    (received_dataPoints receivedDataPackage)
    (received_timestampMilliseconds receivedDataPackage)
    (received_signature receivedDataPackage)
    serviceId
    signer
    (if bool_decide (length (received_dataPoints receivedDataPackage) = 1)
     then from_option point_dataFeedId ALL_FEEDS_KEY
            (received_dataPoints receivedDataPackage !! 0)
     else ALL_FEEDS_KEY)
    valid.

End DataPackagesService.

(** ** Descriptions the code is compared with *)

Module Reference.

(** The group [$group] with [$count] and [$push] builds from the documents
    [members] of timestamp [timestamp], taken in order. *)
Definition collect `{Imports} (timestamp : Z)
    (members : list CachedDataPackage) : DataPackageDocumentAggregated :=
  {| ag_id_timestampMilliseconds := timestamp;
     ag_count := length members;
     ag_signatures := signature <$> members;
     ag_dataPoints := dataPoints <$> members;
     ag_dataFeedIds := dataFeedId <$> members;
     ag_signerAddress := signerAddress <$> members;
     ag_isSignatureValid := isSignatureValid <$> members |}.

(** The documents of one exact timestamp, in order. *)
Definition atTimestamp `{Imports} (timestamp : Z)
    (docs : list CachedDataPackage) : list CachedDataPackage :=
  filter (λ doc, timestampMilliseconds doc = timestamp) docs.

(** A member of a group as the package the loop of strategy B makes of
    it: the timestamp is the group's, the service the query's. *)
Definition stamp `{Imports} (timestamp : Z) (serviceId : string)
    (member : CachedDataPackage) : CachedDataPackage :=
  {| dataPoints := dataPoints member;
     timestampMilliseconds := timestamp;
     signature := signature member;
     dataServiceId := serviceId;
     signerAddress := signerAddress member;
     dataFeedId := dataFeedId member;
     isSignatureValid := isSignatureValid member |}.

(** The package at index [i] of a group, read off its parallel arrays. *)
Definition memberAt `{Imports} (serviceId : string)
    (group : DataPackageDocumentAggregated) (i : nat)
    : option CachedDataPackage :=
  feedId ← ag_dataFeedIds group !! i;
  signer ← ag_signerAddress group !! i;
  points ← ag_dataPoints group !! i;
  sig ← ag_signatures group !! i;
  valid ← ag_isSignatureValid group !! i;
  Some {| dataPoints := points;
          timestampMilliseconds := ag_id_timestampMilliseconds group;
          signature := sig;
          dataServiceId := serviceId;
          signerAddress := signer;
          dataFeedId := feedId;
          isSignatureValid := valid |}.

(** One turn of the loop of strategy B, on a member instead of an index. *)
Definition parseMember `{Imports} (timestamp : Z) (serviceId : string)
    (response : DataPackagesResponse) (member : CachedDataPackage)
    : DataPackagesResponse :=
  if DataPackagesService.isSignerAddressAlreadyInDbResponseForDataFeed
       (signerAddress member) (response !! dataFeedId member)
  then response
  else DataPackagesService.pushToFeed response (dataFeedId member)
         (stamp timestamp serviceId member).

End Reference.

(** ** The memoizing wrapper *)

Module Memoize.

(** Modelled from the spec: [RedstoneCommon.memoize] of
    [@redstone-finance/utils], which builds
    [getLatestDataPackagesWithCache] and
    [getLatestDataPackagesWithSameTimestampWithCache], is not among the
    sources.  Its description: the result of a call is memoized per key;
    while a computation for a key is in flight every caller of that key
    awaits that one computation and shares its outcome; an entry expires
    [ttl] after the computation completed, which the next access checks;
    a failed computation leaves no entry.

    A computation is named by its rank among the store queries issued so
    far, [started] lists their keys, oldest first, and [settled] holds
    the outcome of those that completed. *)
Inductive Slot (V : Type) :=
  | InFlight (computation : nat)
  | Filled (value : V) (expiresAt : Z).
Arguments InFlight {V} computation.
Arguments Filled {V} value expiresAt.

Record Cache (V : Type) := {
  entries : gmap string (Slot V);
  started : list string;
  settled : gmap nat (Result V);
}.
Arguments entries {V} c.
Arguments started {V} c.
Arguments settled {V} c.

(** What a caller holds after its call: a memoized value, or the
    computation it awaits. *)
Inductive Answer (V : Type) :=
  | Served (value : V)
  | Awaits (computation : nat).
Arguments Served {V} value.
Arguments Awaits {V} computation.

Definition initial {V} : Cache V :=
  {| entries := ∅; started := []; settled := ∅ |}.

(** Modelled from the spec: a store query is issued for [key] and becomes
    the computation in flight for it. *)
Definition startQuery {V} (key : string) (c : Cache V) : Cache V * Answer V :=
  ({| entries := <[key := InFlight (length (started c))]> (entries c);
      started := started c ++ [key];
      settled := settled c |},
   Awaits (length (started c))).

(** Modelled from the spec: a call of the memoized function at time
    [now]. *)
Definition call {V} (now : Z) (key : string) (c : Cache V)
    : Cache V * Answer V :=
  match entries c !! key with
  | Some (InFlight computation) => (c, Awaits computation)
  | Some (Filled value expiresAt) =>
      if bool_decide (expiresAt < now)%Z then startQuery key c
      else (c, Served value)
  | None => startQuery key c
  end.

(** Modelled from the spec: the computation [computation] completes at
    time [now] with [outcome]; a success fills the entry for [ttl], a
    failure removes it. *)
Definition settle {V} (ttl : Z) (now : Z) (computation : nat)
    (outcome : Result V) (c : Cache V) : Cache V :=
  match started c !! computation with
  | None => c
  | Some key =>
      {| entries :=
           match entries c !! key with
           | Some (InFlight running) =>
               if bool_decide (running = computation)
               then match outcome with
                    | Ok value => <[key := Filled value (now + ttl)]> (entries c)
                    | Throw _ => delete key (entries c)
                    end
               else entries c
           | _ => entries c
           end;
         started := started c;
         settled := <[computation := outcome]> (settled c) |}
  end.

(** What a caller ends with, once the computation it awaits completed. *)
Definition outcomeOf {V} (c : Cache V) (answer : Answer V)
    : option (Result V) :=
  match answer with
  | Served value => Some (Ok value)
  | Awaits computation => settled c !! computation
  end.

(** The store queries issued for [key] so far. *)
Definition queriesFor {V} (key : string) (c : Cache V) : nat :=
  length (filter (λ k, k = key) (started c)).

(** A run of calls, all issued at [(now, key)] pairs of [calls]. *)
Definition callAll {V} (calls : list (Z * string)) (c : Cache V) : Cache V :=
  foldl (λ c' nk, (call nk.1 nk.2 c').1) c calls.

End Memoize.

(** ** Concrete stores and registries *)

Module Sample.

Definition imports : Imports :=
  {| Value := Z;
     ALL_FEEDS_KEY := "___ALL_FEEDS___";
     EMPTY_DATA_PACKAGE_RESPONSE_ERROR_CODE := 404;
     maxAllowedTimestampDelay := 180000 |}.
#[local] Existing Instance imports.

(** A verified package of the service ["demo"] with one data point. *)
Definition package (signer feedId : string) (timestamp : Z) (sig : string)
    : CachedDataPackage :=
  {| dataPoints := [{| point_dataFeedId := feedId; point_value := 1%Z |}];
     timestampMilliseconds := timestamp;
     signature := sig;
     dataServiceId := "demo";
     signerAddress := signer;
     dataFeedId := feedId;
     isSignatureValid := true |}.

(** One signer reports ["ETH"] twice; the older report is stored first. *)
Definition twoReports : list CachedDataPackage :=
  [ package "0xA" "ETH" 1000 "older"; package "0xA" "ETH" 2000 "newer" ].

(** Two rounds: the round at 1000 has three reports, one of them a
    repetition by ["0xA"]; the round at 2000 has one. *)
Definition twoRounds : list CachedDataPackage :=
  [ package "0xA" "ETH" 1000 "a1"; package "0xB" "ETH" 1000 "b1";
    package "0xA" "ETH" 2000 "a2"; package "0xA" "ETH" 1000 "a3" ].

(** What both strategies answer on [twoRounds] at time 2000. *)
Definition twoRoundsAnswer : DataPackagesResponse :=
  {[ "ETH" := [ package "0xA" "ETH" 1000 "a1";
                package "0xB" "ETH" 1000 "b1" ] ]}.

(** A package exactly at the cutoff of time 200000. *)
Definition atCutoff : CachedDataPackage :=
  package "0xA" "ETH" 20000 "edge".

Definition registry : RedstoneOraclesState :=
  {| nodes :=
       [ ("node-a", {| evmAddress := "0xA"; node_dataServiceId := "demo";
                       name := "alpha" |});
         ("node-c", {| evmAddress := "0xC"; node_dataServiceId := "demo";
                       name := "gamma" |}) ] |}.

Definition received (feeds : list string) (sig : string)
    : ReceivedDataPackage :=
  {| received_dataPoints :=
       (λ feedId, {| point_dataFeedId := feedId; point_value := 1%Z |})
         <$> feeds;
     received_timestampMilliseconds := 1000;
     received_signature := sig |}.

(** A recovery that reads the signer off the signature text and throws
    on the empty signature. *)
Definition recovery : SignerRecovery :=
  λ receivedDataPackage,
    if bool_decide (received_signature receivedDataPackage = "")
    then None else Some (received_signature receivedDataPackage).

End Sample.

(** ** Preparing a batch *)

(** [getDataServiceIdForSigner] of the SDK: the data service of a signer in
    a state of the registry; it throws for a signer the state does not
    know. *)
Class ServiceLookup :=
  getDataServiceIdForSigner : RedstoneOraclesState → string → Result string.

Module BulkSaving.

(** The exception of the lookup leaves the function before any package is
    prepared. *)
Definition prepareReceivedDataPackagesForBulkSaving
    `{SignerRecovery} `{!ServiceLookup}
    (oracleRegistryState : RedstoneOraclesState)
    (receivedDataPackages : list ReceivedDataPackage) (signer : string)
    : Result (list CachedDataPackage) :=
  match getDataServiceIdForSigner oracleRegistryState signer with
  | Throw e => Throw e
  | Ok serviceId =>
      Ok ((λ receivedDataPackage,
             DataPackagesService.prepareDataPackageForSaving
               receivedDataPackage signer serviceId)
            <$> receivedDataPackages)
  end.

End BulkSaving.

(** ** More concrete stores *)

Module SampleBatch.

#[local] Existing Instance Sample.imports.
#[local] Existing Instance Sample.recovery.

(** The data service of the first node of the state with the address of
    the signer. *)
Definition lookup : ServiceLookup :=
  λ oracleRegistryState signer,
    match filter (λ node, evmAddress node = signer)
                 (DataPackagesService.Object_values (nodes oracleRegistryState))
    with
    | node :: _ => Ok (node_dataServiceId node)
    | [] => Throw (BadRequestException "Data service not found")
    end.


(** Two nodes with one address. *)
Definition sharedAddress : RedstoneOraclesState :=
  {| nodes :=
       [ ("node-a", {| evmAddress := "0xA"; node_dataServiceId := "demo";
                       name := "alpha" |});
         ("node-b", {| evmAddress := "0xA"; node_dataServiceId := "other";
                       name := "beta" |}) ] |}.

(** A report of another data service. *)
Definition foreign : CachedDataPackage :=
  {| dataPoints := [{| point_dataFeedId := "ETH"; point_value := 7%Z |}];
     timestampMilliseconds := 2000;
     signature := "f";
     dataServiceId := "other";
     signerAddress := "0xA";
     dataFeedId := "ETH";
     isSignatureValid := true |}.

(** The group strategy B selects on [Sample.twoRounds] at time 2000. *)
Definition selected : DataPackageDocumentAggregated :=
  Reference.collect 1000
    [ Sample.package "0xA" "ETH" 1000 "a1"; Sample.package "0xB" "ETH" 1000 "b1";
      Sample.package "0xA" "ETH" 1000 "a3" ].

(** Three reports of three signers at one timestamp. *)
Definition oneRound : list CachedDataPackage :=
  [ Sample.package "0xA" "ETH" 1000 "a"; Sample.package "0xB" "ETH" 1000 "b";
    Sample.package "0xC" "ETH" 1000 "c" ].

End SampleBatch.

(** * Properties *)

(** ** Writing into a response *)

Section response.
Context `{Imports}.
Implicit Types (response : DataPackagesResponse) (feedId : string).

Lemma pushToFeed_insert response feedId dataPackage :
  DataPackagesService.pushToFeed response feedId dataPackage =
  <[feedId := default [] (response !! feedId) ++ [dataPackage]]> response.
Proof.
  unfold DataPackagesService.pushToFeed.
  destruct (response !! feedId) as [l|] eqn:E; simpl.
  - by rewrite E.
  - by rewrite lookup_insert_eq, insert_insert_eq.
Qed.

Lemma pushToFeed_lookup response feedId dataPackage feedId' :
  DataPackagesService.pushToFeed response feedId dataPackage !! feedId' =
  if decide (feedId = feedId')
  then Some (default [] (response !! feedId) ++ [dataPackage])
  else response !! feedId'.
Proof. rewrite pushToFeed_insert. apply lookup_insert. Qed.

(** What a fold of pushes leaves under a feed: the pushed packages of that
    feed, in the order of the pushes, after what was there. *)
Lemma foldl_push_lookup {A} (feedOf : A → string)
    (entryOf : A → CachedDataPackage) (items : list A) response feedId :
  foldl (λ r x, DataPackagesService.pushToFeed r (feedOf x) (entryOf x))
        response items !! feedId =
  match filter (λ x, feedOf x = feedId) items with
  | [] => response !! feedId
  | kept => Some (default [] (response !! feedId) ++ (entryOf <$> kept))
  end.
Proof.
  revert response. induction items as [|x items IH]; intros response; [done|].
  simpl. rewrite IH, pushToFeed_lookup, filter_cons.
  destruct (decide (feedOf x = feedId)) as [->|Hne].
  - simpl. destruct (filter _ items) as [|y kept]; simpl.
    + done.
    + by rewrite <- (assoc_L (++)).
  - done.
Qed.

End response.

(** ** Strategy A: the [$group] stage with [$first] *)

Section groupFirst.
Context `{Imports}.
Implicit Types (doc : CachedDataPackage) (docs : list CachedDataPackage).
Implicit Types (groups : list DataPackageDocumentMostRecentAggregated).

Lemma entryOfMostRecent_firstOf doc :
  DataPackagesService.entryOfMostRecent (Pipeline.firstOf doc) = doc.
Proof. by destruct doc. Qed.

Lemma accumulateFirst_decide doc groups :
  Pipeline.accumulateFirst doc groups =
  if decide (Pipeline.idOf doc ∈ mr_id <$> groups) then groups
  else groups ++ [Pipeline.firstOf doc].
Proof.
  induction groups as [|g groups IH].
  - case_decide as Hin; [by apply elem_of_nil in Hin | done].
  - cbn [Pipeline.accumulateFirst]. rewrite IH, fmap_cons. clear IH.
    case_bool_decide as Hid.
    + destruct (decide (_ ∈ mr_id g :: _)) as [|Hout]; [done|].
      destruct Hout. rewrite Hid. apply list_elem_of_here.
    + destruct (decide (_ ∈ mr_id <$> groups)) as [Hin|Hout];
        destruct (decide (_ ∈ mr_id g :: _)) as [Hin'|Hout']; try done.
      * destruct Hout'. by apply list_elem_of_further.
      * apply elem_of_cons in Hin' as [?|?]; congruence.
Qed.

Lemma groupBySignerAndFeed_snoc docs doc :
  Pipeline.groupBySignerAndFeed (docs ++ [doc]) =
  Pipeline.accumulateFirst doc (Pipeline.groupBySignerAndFeed docs).
Proof. unfold Pipeline.groupBySignerAndFeed. by rewrite foldl_snoc. Qed.

(** The groups have pairwise distinct ids, every document has its group,
    and a group is made from the first document of its id. *)
Lemma groupBySignerAndFeed_spec docs :
  NoDup (mr_id <$> Pipeline.groupBySignerAndFeed docs) ∧
  (∀ doc, doc ∈ docs →
     Pipeline.idOf doc ∈ mr_id <$> Pipeline.groupBySignerAndFeed docs) ∧
  (∀ g, g ∈ Pipeline.groupBySignerAndFeed docs →
     ∃ i doc,
       list_find (λ doc', Pipeline.idOf doc' = mr_id g) docs = Some (i, doc) ∧
       g = Pipeline.firstOf doc).
Proof.
  induction docs as [|doc docs (Hnd & Hcover & Hfirst)] using rev_ind.
  - split_and!; [constructor | by intros ? ?%elem_of_nil
                             | by intros ? ?%elem_of_nil].
  - rewrite groupBySignerAndFeed_snoc, accumulateFirst_decide.
    destruct (decide (_ ∈ _)) as [Hin|Hout].
    + split_and!; [done| |].
      * intros doc' [?| ->%list_elem_of_singleton]%elem_of_app; auto.
      * intros g Hg. destruct (Hfirst g Hg) as (i & d & Hfind & ->).
        exists i, d. split; [|done]. apply list_find_app_Some. by left.
    + split_and!.
      * rewrite fmap_app. apply NoDup_app. split_and!; [done| |].
        -- intros id Hid ->%list_elem_of_singleton. done.
        -- apply NoDup_singleton.
      * intros doc' [?| ->%list_elem_of_singleton]%elem_of_app;
          rewrite fmap_app; apply elem_of_app; [left; auto|right].
        apply list_elem_of_singleton. done.
      * intros g [Hg| ->%list_elem_of_singleton]%elem_of_app.
        -- destruct (Hfirst g Hg) as (i & d & Hfind & ->).
           exists i, d. split; [|done]. apply list_find_app_Some. by left.
        -- exists (length docs + 0), doc. split; [|done].
           apply list_find_app_Some. right. split_and!; [lia| |].
           ++ apply list_find_None, Forall_forall. intros d Hd Heq.
              apply Hout. change (mr_id (Pipeline.firstOf doc))
                with (Pipeline.idOf doc) in Heq. rewrite <- Heq. by apply Hcover.
           ++ replace (length docs + 0 - length docs) with 0 by lia.
              simpl. by rewrite decide_True.
Qed.

End groupFirst.

(** ** Strategy A: the response *)

Section strategyA.
Context `{Imports}.
Implicit Types (store : list CachedDataPackage) (serviceId : string).
Implicit Types (timestamp : option Z) (response : DataPackagesResponse).

Lemma merge_sort_elem_of {A} (R : relation A) `{!∀ x y, Decision (R x y)}
    (l : list A) (x : A) :
  x ∈ merge_sort R l ↔ x ∈ l.
Proof. by rewrite merge_sort_Permutation. Qed.

Lemma merge_sort_nil_inv {A} (R : relation A) `{!∀ x y, Decision (R x y)}
    (l : list A) :
  merge_sort R l = [] → l = [].
Proof.
  intros Hnil. apply Permutation_nil_r.
  by rewrite <- (merge_sort_Permutation R l), Hnil.
Qed.

(** When the query answers, its answer is the fold of the loop over the
    sorted groups, and there is at least one group. *)
Lemma strategyA_Ok now store serviceId timestamp response :
  DataPackagesService.getDataPackagesFromDbByTimestampOrLatest
    now store serviceId timestamp = Ok response ↔
  Pipeline.aggregateMostRecent now store serviceId timestamp ≠ [] ∧
  response =
    foldl DataPackagesService.parseMostRecent ∅
          (Pipeline.aggregateMostRecent now store serviceId timestamp).
Proof.
  unfold DataPackagesService.getDataPackagesFromDbByTimestampOrLatest.
  case_bool_decide as Hlen.
  - apply nil_length_inv in Hlen. rewrite Hlen.
    split; [done | by intros [? _]].
  - split.
    + intros [= <-]. split; [|done]. intros Hnil. by rewrite Hnil in Hlen.
    + by intros [_ ->].
Qed.

Lemma strategyA_lookup now store serviceId timestamp response feedId :
  DataPackagesService.getDataPackagesFromDbByTimestampOrLatest
    now store serviceId timestamp = Ok response →
  response !! feedId =
  match filter (λ g, id_dataFeedId (mr_id g) = feedId)
               (Pipeline.aggregateMostRecent now store serviceId timestamp)
  with
  | [] => None
  | kept => Some (DataPackagesService.entryOfMostRecent <$> kept)
  end.
Proof.
  intros [_ ->]%strategyA_Ok.
  unfold DataPackagesService.parseMostRecent.
  rewrite (foldl_push_lookup (λ g, id_dataFeedId (mr_id g))
             DataPackagesService.entryOfMostRecent).
  by rewrite lookup_empty.
Qed.

Lemma strategyA_lookup_Some now store serviceId timestamp response
    feedId entries :
  DataPackagesService.getDataPackagesFromDbByTimestampOrLatest
    now store serviceId timestamp = Ok response →
  response !! feedId = Some entries →
  entries ≠ [] ∧
  entries =
    DataPackagesService.entryOfMostRecent <$>
      filter (λ g, id_dataFeedId (mr_id g) = feedId)
             (Pipeline.aggregateMostRecent now store serviceId timestamp).
Proof.
  intros Hok Hfeed.
  rewrite (strategyA_lookup _ _ _ _ _ _ Hok) in Hfeed.
  destruct (filter _ _) as [|g0 kept]; [done|].
  apply (inj Some) in Hfeed as <-. done.
Qed.

(** Every entry of an answer is a stored document that passed [$match]:
    the first one, in store order, of its signer and feed. *)
Lemma strategyA_entry_first now store serviceId timestamp response
    feedId entries entry :
  DataPackagesService.getDataPackagesFromDbByTimestampOrLatest
    now store serviceId timestamp = Ok response →
  response !! feedId = Some entries →
  entry ∈ entries →
  dataFeedId entry = feedId ∧
  ∃ i, list_find (λ doc, Pipeline.idOf doc = Pipeline.idOf entry)
                 (Pipeline.eligibleA now store serviceId timestamp) = Some (i, entry).
Proof.
  intros Hok Hfeed Hentry.
  destruct (strategyA_lookup_Some _ _ _ _ _ _ _ Hok Hfeed) as [_ ->].
  apply list_elem_of_fmap in Hentry as (g & -> & Hg).
  apply list_elem_of_filter in Hg as [Hgfeed Hg].
  apply merge_sort_elem_of in Hg.
  destruct (groupBySignerAndFeed_spec
              (Pipeline.eligibleA now store serviceId timestamp))
    as (_ & _ & Hfirst).
  destruct (Hfirst g Hg) as (i & doc & Hfind & ->).
  rewrite entryOfMostRecent_firstOf in *. split; [done|].
  exists i. done.
Qed.

(** The ids of the sorted groups are pairwise distinct. *)
Lemma aggregateMostRecent_NoDup now store serviceId timestamp :
  NoDup (mr_id <$> Pipeline.aggregateMostRecent now store serviceId timestamp).
Proof.
  unfold Pipeline.aggregateMostRecent.
  rewrite merge_sort_Permutation.
  apply groupBySignerAndFeed_spec.
Qed.

Lemma strategyA_signers_NoDup now store serviceId timestamp response
    feedId entries :
  DataPackagesService.getDataPackagesFromDbByTimestampOrLatest
    now store serviceId timestamp = Ok response →
  response !! feedId = Some entries →
  NoDup (signerAddress <$> entries).
Proof.
  intros Hok Hfeed.
  destruct (strategyA_lookup_Some _ _ _ _ _ _ _ Hok Hfeed) as [_ ->].
  rewrite <- list_fmap_compose.
  apply NoDup_fmap_2_strong.
  - intros g1 g2 [Hf1 Hg1]%list_elem_of_filter [Hf2 Hg2]%list_elem_of_filter.
    simpl. intros Hsigner.
    assert (mr_id g1 = mr_id g2) as Hid.
    { destruct (mr_id g1), (mr_id g2). simpl in *. congruence. }
    pose proof (aggregateMostRecent_NoDup now store serviceId timestamp)
      as Hnd.
    apply list_elem_of_lookup in Hg1 as [i1 Hi1].
    apply list_elem_of_lookup in Hg2 as [i2 Hi2].
    assert (i1 = i2) as ->; [|congruence].
    eapply NoDup_lookup; [exact Hnd| |];
      rewrite list_lookup_fmap; [by rewrite Hi1|by rewrite Hi2, Hid].
  - eapply sublist_NoDup; [|apply sublist_filter].
    eapply NoDup_fmap_1, aggregateMostRecent_NoDup.
Qed.

(** No eligible document: the query throws the empty-response exception. *)
Lemma strategyA_empty now store serviceId timestamp :
  Pipeline.eligibleA now store serviceId timestamp = [] →
  DataPackagesService.getDataPackagesFromDbByTimestampOrLatest
    now store serviceId timestamp = Throw DataPackagesService.emptyResponse.
Proof.
  unfold DataPackagesService.getDataPackagesFromDbByTimestampOrLatest,
    Pipeline.aggregateMostRecent.
  by intros ->.
Qed.

(** An answer has a feed, and no feed of an answer is empty. *)
Lemma strategyA_Ok_nonempty now store serviceId timestamp response :
  DataPackagesService.getDataPackagesFromDbByTimestampOrLatest
    now store serviceId timestamp = Ok response →
  response ≠ ∅ ∧ ∀ feedId entries, response !! feedId = Some entries → entries ≠ [].
Proof.
  intros Hok. split.
  - pose proof Hok as [Hne _]%strategyA_Ok.
    destruct (Pipeline.aggregateMostRecent _ _ _ _) as [|g gs] eqn:Hagg;
      [done|].
    intros Hempty.
    pose proof (strategyA_lookup _ _ _ _ _ (id_dataFeedId (mr_id g)) Hok)
      as Hlook.
    rewrite Hagg, filter_cons, decide_True, Hempty, lookup_empty in Hlook
      by done.
    done.
  - intros feedId entries Hfeed.
    by destruct (strategyA_lookup_Some _ _ _ _ _ _ _ Hok Hfeed).
Qed.

End strategyA.

(** ** Strategy B: the [$group] stage with [$count] and [$push] *)

Section groupPush.
Context `{Imports}.
Implicit Types (doc : CachedDataPackage) (docs : list CachedDataPackage).
Implicit Types (groups : list DataPackageDocumentAggregated).

Lemma collect_snoc timestamp docs doc :
  Reference.collect timestamp (docs ++ [doc]) =
  Pipeline.pushInto (Reference.collect timestamp docs) doc.
Proof.
  unfold Reference.collect, Pipeline.pushInto. simpl.
  rewrite !fmap_app, length_app. simpl. f_equal. lia.
Qed.

Lemma atTimestamp_snoc timestamp docs doc :
  Reference.atTimestamp timestamp (docs ++ [doc]) =
  Reference.atTimestamp timestamp docs ++
    (if decide (timestampMilliseconds doc = timestamp) then [doc] else []).
Proof.
  unfold Reference.atTimestamp.
  by rewrite filter_app, filter_cons, filter_nil.
Qed.

Lemma accumulatePush_timestamps doc groups :
  ag_id_timestampMilliseconds <$> Pipeline.accumulatePush doc groups =
  if decide (timestampMilliseconds doc ∈ ag_id_timestampMilliseconds <$> groups)
  then ag_id_timestampMilliseconds <$> groups
  else (ag_id_timestampMilliseconds <$> groups) ++ [timestampMilliseconds doc].
Proof.
  induction groups as [|g groups IH].
  - case_decide as Hin; [by apply elem_of_nil in Hin | done].
  - cbn [Pipeline.accumulatePush]. rewrite !fmap_cons.
    case_bool_decide as Hts.
    + rewrite fmap_cons. simpl.
      destruct (decide (_ ∈ _ :: _)) as [|Hout]; [done|].
      destruct Hout. rewrite Hts. apply list_elem_of_here.
    + rewrite fmap_cons, IH. clear IH.
      destruct (decide (_ ∈ ag_id_timestampMilliseconds <$> groups))
        as [Hin|Hout];
        destruct (decide (_ ∈ _ :: _)) as [Hin'|Hout']; try done.
      * destruct Hout'. by apply list_elem_of_further.
      * apply elem_of_cons in Hin' as [?|?]; congruence.
Qed.

(** Where a group of the new list comes from. *)
Lemma accumulatePush_elem_of doc groups g' :
  g' ∈ Pipeline.accumulatePush doc groups →
  (g' ∈ groups ∧
   (ag_id_timestampMilliseconds g' ≠ timestampMilliseconds doc ∨
    ¬ NoDup (ag_id_timestampMilliseconds <$> groups))) ∨
  (∃ g, g ∈ groups ∧
        ag_id_timestampMilliseconds g = timestampMilliseconds doc ∧
        g' = Pipeline.pushInto g doc) ∨
  ((timestampMilliseconds doc ∉ ag_id_timestampMilliseconds <$> groups) ∧
   g' = Pipeline.openGroup doc).
Proof.
  induction groups as [|g groups IH]; cbn [Pipeline.accumulatePush].
  - intros ->%list_elem_of_singleton. right. right.
    split; [by intros ?%elem_of_nil | done].
  - case_bool_decide as Hts.
    + intros [->|Hin]%elem_of_cons.
      * right. left. exists g. split; [apply list_elem_of_here | done].
      * left. split; [by apply list_elem_of_further|].
        destruct (decide (ag_id_timestampMilliseconds g' =
                          timestampMilliseconds doc)) as [Heq|]; [|by left].
        right. rewrite fmap_cons. intros Hnd%NoDup_cons_1_1. apply Hnd.
        rewrite Hts, <- Heq. by apply list_elem_of_fmap_2.
    + intros [->|Hin]%elem_of_cons.
      * left. split; [apply list_elem_of_here | by left].
      * destruct (IH Hin) as [[Hg' Hcase]|[(g0 & Hg0 & Heq & ->)|[Hout ->]]].
        -- left. split; [by apply list_elem_of_further|].
           destruct Hcase as [?|Hdup]; [by left|right].
           rewrite fmap_cons. by intros ?%NoDup_cons_1_2.
        -- right. left. exists g0. split; [by apply list_elem_of_further|done].
        -- right. right. split; [|done]. rewrite fmap_cons.
           intros [?|?]%elem_of_cons; congruence.
Qed.

Lemma groupByTimestamp_snoc docs doc :
  Pipeline.groupByTimestamp (docs ++ [doc]) =
  Pipeline.accumulatePush doc (Pipeline.groupByTimestamp docs).
Proof. unfold Pipeline.groupByTimestamp. by rewrite foldl_snoc. Qed.

(** The groups have pairwise distinct timestamps, every document has its
    group, and a group holds, in order, the documents of its timestamp,
    of which there is at least one. *)
Lemma groupByTimestamp_spec docs :
  NoDup (ag_id_timestampMilliseconds <$> Pipeline.groupByTimestamp docs) ∧
  (∀ doc, doc ∈ docs →
     timestampMilliseconds doc ∈
       ag_id_timestampMilliseconds <$> Pipeline.groupByTimestamp docs) ∧
  (∀ g, g ∈ Pipeline.groupByTimestamp docs →
     Reference.atTimestamp (ag_id_timestampMilliseconds g) docs ≠ [] ∧
     g = Reference.collect (ag_id_timestampMilliseconds g)
           (Reference.atTimestamp (ag_id_timestampMilliseconds g) docs)).
Proof.
  induction docs as [|doc docs (Hnd & Hcover & Hgroup)] using rev_ind.
  - split_and!; [constructor | by intros ? ?%elem_of_nil
                             | by intros ? ?%elem_of_nil].
  - rewrite groupByTimestamp_snoc. split_and!.
    + rewrite accumulatePush_timestamps. case_decide as Hin; [done|].
      apply NoDup_app. split_and!; [done| |apply NoDup_singleton].
      by intros t Ht ->%list_elem_of_singleton.
    + intros doc' Hdoc'. rewrite accumulatePush_timestamps.
      apply elem_of_app in Hdoc' as [Hold| ->%list_elem_of_singleton].
      * case_decide; [auto|]. apply elem_of_app. left. auto.
      * case_decide; [done|]. apply elem_of_app. right.
        by apply list_elem_of_singleton.
    + intros g' Hg'. rewrite atTimestamp_snoc.
      apply accumulatePush_elem_of in Hg'
        as [[Hold [Hts|Hdup]]|[(g & Hg & Hts & ->)|[Hout ->]]].
      * rewrite decide_False, app_nil_r by done. by apply Hgroup.
      * done.
      * simpl. rewrite Hts, decide_True by done.
        destruct (Hgroup g Hg) as [_ Hcollect]. split.
        -- by intros [? ?]%app_eq_nil.
        -- rewrite collect_snoc, <- Hts, <- Hcollect. done.
      * simpl. rewrite decide_True by done.
        assert (Reference.atTimestamp (timestampMilliseconds doc) docs = [])
          as ->.
        { destruct (Reference.atTimestamp _ docs) as [|d ds] eqn:Hat; [done|].
          destruct Hout.
          assert (d ∈ Reference.atTimestamp (timestampMilliseconds doc) docs)
            as [Hd1 Hd2]%list_elem_of_filter
            by (rewrite Hat; apply list_elem_of_here).
          rewrite <- Hd1. by apply Hcover. }
        done.
Qed.

End groupPush.

(** ** Strategy B: the [$sort] and [$limit] stages *)

Section selectGroup.
Context `{Imports}.
Implicit Types (store : list CachedDataPackage) (serviceId : string).

#[local] Instance moreThenNewerFirst_trans :
  Transitive Pipeline.moreThenNewerFirst.
Proof. unfold Pipeline.moreThenNewerFirst. intros g1 g2 g3 ??. lia. Qed.

#[local] Instance moreThenNewerFirst_total :
  Total Pipeline.moreThenNewerFirst.
Proof. unfold Pipeline.moreThenNewerFirst. intros g1 g2. lia. Qed.

(** The head of a sorted list comes before every element of the list. *)
Lemma merge_sort_head {A} (R : relation A) `{!∀ x y, Decision (R x y)}
    `{!Transitive R, !Total R} (l : list A) (x : A) (rest : list A) :
  merge_sort R l = x :: rest → x ∈ l ∧ ∀ y, y ∈ l → R x y.
Proof.
  intros Hsort.
  pose proof (StronglySorted_merge_sort R l) as Hsorted.
  rewrite Hsort in Hsorted. apply StronglySorted_cons in Hsorted as [Hall _].
  split.
  - apply (merge_sort_elem_of R). rewrite Hsort. apply list_elem_of_here.
  - intros y Hy. apply (merge_sort_elem_of R) in Hy. rewrite Hsort in Hy.
    apply elem_of_cons in Hy as [->|Hy].
    + by destruct (total R x x).
    + by eapply Forall_forall in Hall.
Qed.

(** The pipeline answers with no group when nothing is eligible, and with
    one group otherwise: a group of the eligible documents that comes
    first in the order of [$sort]. *)
Lemma aggregateSameTimestamp_cases now store serviceId :
  (Pipeline.eligibleB now store serviceId = [] ∧
   Pipeline.aggregateSameTimestamp now store serviceId = []) ∨
  (∃ g,
     Pipeline.aggregateSameTimestamp now store serviceId = [g] ∧
     g ∈ Pipeline.groupByTimestamp (Pipeline.eligibleB now store serviceId) ∧
     ∀ g', g' ∈ Pipeline.groupByTimestamp
                  (Pipeline.eligibleB now store serviceId) →
           Pipeline.moreThenNewerFirst g g').
Proof.
  unfold Pipeline.aggregateSameTimestamp.
  destruct (Pipeline.eligibleB now store serviceId) as [|doc docs] eqn:Hel.
  - by left.
  - right. rewrite <- Hel.
    destruct (merge_sort _ _) as [|g rest] eqn:Hsort.
    + apply merge_sort_nil_inv in Hsort.
      destruct (groupByTimestamp_spec
                  (Pipeline.eligibleB now store serviceId))
        as (_ & Hcover & _).
      specialize (Hcover doc). rewrite Hsort, Hel in Hcover.
      by apply elem_of_nil in Hcover; [|apply list_elem_of_here].
    + exists g. split; [by destruct rest|].
      exact (merge_sort_head Pipeline.moreThenNewerFirst _ _ _ Hsort).
Qed.

End selectGroup.

(** ** Strategy B: the loop over the selected group *)

Section parseGroup.
Context `{Imports}.
Implicit Types (response : DataPackagesResponse).
Implicit Types (member : CachedDataPackage) (members : list CachedDataPackage).

Lemma isSignerAddressAlready_true signer response feedId :
  DataPackagesService.isSignerAddressAlreadyInDbResponseForDataFeed
    signer (response !! feedId) = true ↔
  ∃ entries, response !! feedId = Some entries ∧
             signer ∈ signerAddress <$> entries.
Proof.
  unfold DataPackagesService.isSignerAddressAlreadyInDbResponseForDataFeed.
  destruct (response !! feedId) as [entries|]; [|by split; [|intros (? & ? & ?)]].
  rewrite existsb_exists. split.
  - intros (e & He%list_elem_of_In & Heq%bool_decide_eq_true).
    exists entries. split; [done|]. rewrite <- Heq.
    by apply list_elem_of_fmap_2.
  - intros (? & [= <-] & (e & -> & He)%list_elem_of_fmap).
    exists e. split; [by apply list_elem_of_In | by apply bool_decide_eq_true].
Qed.

Lemma memberAt_collect timestamp serviceId members i :
  Reference.memberAt serviceId (Reference.collect timestamp members) i =
  Reference.stamp timestamp serviceId <$> members !! i.
Proof.
  unfold Reference.memberAt, Reference.collect. simpl.
  rewrite !list_lookup_fmap. by destruct (members !! i).
Qed.

Lemma parseSameTimestampAt_collect timestamp serviceId members response i
    member :
  members !! i = Some member →
  DataPackagesService.parseSameTimestampAt
    serviceId (Reference.collect timestamp members) response i =
  Some (Reference.parseMember timestamp serviceId response member).
Proof.
  intros Hi.
  unfold DataPackagesService.parseSameTimestampAt, Reference.collect,
    Reference.parseMember. simpl.
  rewrite !list_lookup_fmap, Hi. simpl.
  by destruct (DataPackagesService.isSignerAddressAlreadyInDbResponseForDataFeed
                 _ _).
Qed.

(** A loop over the indices of a list is a loop over its elements. *)
Lemma foldl_indices {A B} (f : B → nat → option B) (g : B → A → B)
    (l : list A) (b : B) :
  (∀ b' i x, l !! i = Some x → f b' i = Some (g b' x)) →
  foldl (λ acc i, acc ≫= λ b', f b' i) (Some b) (seq 0 (length l)) =
  Some (foldl g b l).
Proof.
  induction l as [|x l IH] using rev_ind; intros Hstep; [done|].
  rewrite length_app, seq_app, !foldl_app. simpl.
  rewrite IH.
  - simpl. apply Hstep. rewrite lookup_app_r by lia.
    by replace (length l - length l) with 0 by lia.
  - intros b' i y Hi. apply Hstep. by apply lookup_app_l_Some.
Qed.

(** The loop never reads past the arrays of a group that [$group] built. *)
Lemma parseSameTimestamp_collect timestamp serviceId members :
  DataPackagesService.parseSameTimestamp
    serviceId (Reference.collect timestamp members) =
  Some (foldl (Reference.parseMember timestamp serviceId) ∅ members).
Proof.
  unfold DataPackagesService.parseSameTimestamp.
  change (ag_count (Reference.collect timestamp members))
    with (length members).
  apply foldl_indices. intros. by apply parseSameTimestampAt_collect.
Qed.

End parseGroup.

(** ** Strategy B: what the loop leaves under a feed *)

Section dedup.
Context `{Imports}.
Implicit Types (response : DataPackagesResponse).
Implicit Types (member : CachedDataPackage) (members : list CachedDataPackage).

Lemma isSignerAddressAlready_false signer response feedId :
  DataPackagesService.isSignerAddressAlreadyInDbResponseForDataFeed
    signer (response !! feedId) = false →
  signer ∉ signerAddress <$> default [] (response !! feedId).
Proof.
  intros Hfalse Hin.
  assert (DataPackagesService.isSignerAddressAlreadyInDbResponseForDataFeed
            signer (response !! feedId) = true) as Htrue; [|congruence].
  apply isSignerAddressAlready_true.
  destruct (response !! feedId) as [entries|]; [by exists entries|].
  by apply elem_of_nil in Hin.
Qed.

Lemma NoDup_fmap_eq {A B} (f : A → B) (l : list A) (x y : A) :
  NoDup (f <$> l) → x ∈ l → y ∈ l → f x = f y → x = y.
Proof.
  intros Hnd [i Hi]%list_elem_of_lookup [j Hj]%list_elem_of_lookup Heq.
  assert (i = j) as ->; [|congruence].
  eapply NoDup_lookup; [exact Hnd| |]; rewrite list_lookup_fmap;
    [by rewrite Hi | by rewrite Hj, Heq].
Qed.

Lemma list_find_snoc_old {A} (P : A → Prop) `{!∀ x, Decision (P x)}
    (l : list A) (x y : A) (k : nat) :
  list_find P l = Some (k, y) → list_find P (l ++ [x]) = Some (k, y).
Proof. intros Hfind. apply list_find_app_Some. by left. Qed.

(** After the loop over [members]: a feed of the response is not empty
    and holds one entry a signer; an entry is the stamped first member of
    its signer and feed; every member finds its signer under its feed. *)
Lemma parseMember_fold_spec timestamp serviceId members :
  let response :=
    foldl (Reference.parseMember timestamp serviceId) ∅ members in
  (∀ feedId entries, response !! feedId = Some entries →
     entries ≠ [] ∧
     NoDup (signerAddress <$> entries) ∧
     ∀ entry, entry ∈ entries →
       ∃ k first,
         list_find (λ m, Pipeline.idOf m = Pipeline.idOf first) members
           = Some (k, first) ∧
         dataFeedId first = feedId ∧
         entry = Reference.stamp timestamp serviceId first) ∧
  (∀ member, member ∈ members →
     ∃ entries, response !! dataFeedId member = Some entries ∧
                signerAddress member ∈ signerAddress <$> entries).
Proof.
  induction members as [|member members [Hfeeds Hcover]] using rev_ind.
  - simpl. split; [by intros ?? ?%lookup_empty_Some | by intros ? ?%elem_of_nil].
  - rewrite foldl_snoc. cbv zeta in *.
    set (response := foldl _ ∅ members) in *.
    unfold Reference.parseMember.
    destruct (DataPackagesService.isSignerAddressAlreadyInDbResponseForDataFeed
                _ _) eqn:Halready.
    + split.
      * intros feedId entries Hlook.
        destruct (Hfeeds _ _ Hlook) as (Hne & Hnd & Hentries).
        split_and!; [done..|]. intros entry Hentry.
        destruct (Hentries _ Hentry) as (k & first & Hfind & Hfeed & ->).
        exists k, first. split_and!; [|done..].
        by apply list_find_snoc_old.
      * intros member' [Hold| ->%list_elem_of_singleton]%elem_of_app; [auto|].
        by apply isSignerAddressAlready_true.
    + pose proof (isSignerAddressAlready_false _ _ _ Halready) as Hfresh.
      assert (list_find (λ m, Pipeline.idOf m = Pipeline.idOf member)
                (members ++ [member]) = Some (length members + 0, member))
        as Hnew.
      { apply list_find_app_Some. right. split_and!; [lia| |].
        - apply list_find_None, Forall_forall. intros m Hm Hid.
          destruct (Hcover m Hm) as (entries & Hlook & Hin).
          injection Hid as Hsigner Hfeed.
          apply Hfresh. by rewrite <- Hfeed, Hlook, <- Hsigner.
        - replace (length members + 0 - length members) with 0 by lia.
          simpl. by rewrite decide_True. }
      split.
      * intros feedId entries. rewrite pushToFeed_lookup.
        case_decide as Hfeed.
        -- intros [= <-]. subst feedId. split_and!.
           ++ by intros [? ?]%app_eq_nil.
           ++ rewrite fmap_app. apply NoDup_app. split_and!.
              ** destruct (response !! dataFeedId member) as [old|] eqn:Hold;
                   [|constructor]. by apply (Hfeeds _ _ Hold).
              ** intros signer Hin ->%list_elem_of_singleton. by apply Hfresh.
              ** apply NoDup_singleton.
           ++ intros entry [Hin| ->%list_elem_of_singleton]%elem_of_app.
              ** destruct (response !! dataFeedId member) as [old|] eqn:Hold;
                   [|by apply elem_of_nil in Hin].
                 destruct (Hfeeds _ _ Hold) as (_ & _ & Hentries).
                 destruct (Hentries _ Hin) as (k & first & Hfind & Hf & ->).
                 exists k, first. split_and!; [|done..].
                 by apply list_find_snoc_old.
              ** by exists (length members + 0), member.
        -- intros Hlook.
           destruct (Hfeeds _ _ Hlook) as (Hne & Hnd & Hentries).
           split_and!; [done..|]. intros entry Hentry.
           destruct (Hentries _ Hentry) as (k & first & Hfind & Hf & ->).
           exists k, first. split_and!; [|done..].
           by apply list_find_snoc_old.
      * intros member' Hmember'. rewrite pushToFeed_lookup.
        case_decide as Hfeed.
        -- eexists. split; [done|]. rewrite fmap_app, elem_of_app.
           apply elem_of_app in Hmember' as [Hold| ->%list_elem_of_singleton].
           ++ left. destruct (Hcover _ Hold) as (entries & Hlook & Hin).
              by rewrite Hfeed, Hlook.
           ++ right. by apply list_elem_of_singleton.
        -- apply elem_of_app in Hmember' as [Hold| ->%list_elem_of_singleton];
             [auto|done].
Qed.

End dedup.

(** ** Strategy B: the response *)

Section strategyB.
Context `{Imports}.
Implicit Types (store : list CachedDataPackage) (serviceId : string).
Implicit Types (response : DataPackagesResponse).

(** The query always comes back: with the empty-response exception when
    nothing is eligible, and otherwise with the loop run over the
    documents of the selected group, which are the eligible documents of
    its timestamp in store order. *)
Lemma strategyB_cases now store serviceId :
  (Pipeline.eligibleB now store serviceId = [] ∧
   DataPackagesService.getLatestDataPackagesFromDbWithSameTimestamp
     now store serviceId = Some (Throw DataPackagesService.emptyResponse)) ∨
  (∃ g,
     Pipeline.aggregateSameTimestamp now store serviceId = [g] ∧
     g ∈ Pipeline.groupByTimestamp (Pipeline.eligibleB now store serviceId) ∧
     (∀ g', g' ∈ Pipeline.groupByTimestamp
                   (Pipeline.eligibleB now store serviceId) →
            Pipeline.moreThenNewerFirst g g') ∧
     DataPackagesService.getLatestDataPackagesFromDbWithSameTimestamp
       now store serviceId =
     Some (Ok (foldl (Reference.parseMember
                        (ag_id_timestampMilliseconds g) serviceId) ∅
                     (Reference.atTimestamp (ag_id_timestampMilliseconds g)
                        (Pipeline.eligibleB now store serviceId))))).
Proof.
  unfold DataPackagesService.getLatestDataPackagesFromDbWithSameTimestamp.
  destruct (aggregateSameTimestamp_cases now store serviceId)
    as [[Hel ->]|(g & -> & Hg & Hfirst)]; [by left|right].
  exists g. split_and!; [done..|].
  destruct (groupByTimestamp_spec (Pipeline.eligibleB now store serviceId))
    as (_ & _ & Hgroup).
  destruct (Hgroup g Hg) as [_ Hcollect].
  rewrite Hcollect at 1. by rewrite parseSameTimestamp_collect.
Qed.

Lemma strategyB_total now store serviceId :
  is_Some (DataPackagesService.getLatestDataPackagesFromDbWithSameTimestamp
             now store serviceId).
Proof.
  destruct (strategyB_cases now store serviceId)
    as [[_ ->]|(g & _ & _ & _ & ->)]; by eexists.
Qed.

Lemma strategyB_Ok now store serviceId response :
  DataPackagesService.getLatestDataPackagesFromDbWithSameTimestamp
    now store serviceId = Some (Ok response) →
  ∃ g,
    Pipeline.aggregateSameTimestamp now store serviceId = [g] ∧
    g ∈ Pipeline.groupByTimestamp (Pipeline.eligibleB now store serviceId) ∧
    (∀ g', g' ∈ Pipeline.groupByTimestamp
                  (Pipeline.eligibleB now store serviceId) →
           Pipeline.moreThenNewerFirst g g') ∧
    g = Reference.collect (ag_id_timestampMilliseconds g)
          (Reference.atTimestamp (ag_id_timestampMilliseconds g)
             (Pipeline.eligibleB now store serviceId)) ∧
    Reference.atTimestamp (ag_id_timestampMilliseconds g)
      (Pipeline.eligibleB now store serviceId) ≠ [] ∧
    response =
      foldl (Reference.parseMember (ag_id_timestampMilliseconds g) serviceId)
            ∅
            (Reference.atTimestamp (ag_id_timestampMilliseconds g)
               (Pipeline.eligibleB now store serviceId)).
Proof.
  intros Hok.
  destruct (strategyB_cases now store serviceId)
    as [[_ Hthrow]|(g & Hagg & Hg & Hfirst & Hrun)]; [congruence|].
  exists g. split_and!; [done..| | |congruence].
  - by apply groupByTimestamp_spec.
  - by apply groupByTimestamp_spec.
Qed.

Lemma strategyB_signers_NoDup now store serviceId response feedId entries :
  DataPackagesService.getLatestDataPackagesFromDbWithSameTimestamp
    now store serviceId = Some (Ok response) →
  response !! feedId = Some entries →
  NoDup (signerAddress <$> entries).
Proof.
  intros (g & _ & _ & _ & _ & _ & ->)%strategyB_Ok Hfeed.
  by apply (parseMember_fold_spec _ _ _) in Hfeed as (_ & ? & _).
Qed.

Lemma strategyB_Ok_nonempty now store serviceId response :
  DataPackagesService.getLatestDataPackagesFromDbWithSameTimestamp
    now store serviceId = Some (Ok response) →
  response ≠ ∅ ∧
  ∀ feedId entries, response !! feedId = Some entries → entries ≠ [].
Proof.
  intros (g & _ & _ & _ & _ & Hne & ->)%strategyB_Ok. split.
  - destruct (Reference.atTimestamp _ _) as [|member members] eqn:Hat;
      [done|]. intros Hempty.
    rewrite <- Hat in Hempty.
    destruct (parseMember_fold_spec (ag_id_timestampMilliseconds g) serviceId
                (Reference.atTimestamp (ag_id_timestampMilliseconds g)
                   (Pipeline.eligibleB now store serviceId)))
      as [_ Hcover].
    destruct (Hcover member) as (entries & Hlook & _).
    { rewrite Hat. apply list_elem_of_here. }
    cbv zeta in Hlook. by rewrite Hempty, lookup_empty in Hlook.
  - intros feedId entries Hfeed.
    by apply (parseMember_fold_spec _ _ _) in Hfeed as (? & _).
Qed.

End strategyB.

(** * The stated properties *)

Section claims.
Context `{Imports}.
Implicit Types (store : list CachedDataPackage) (serviceId : string).
Implicit Types (response : DataPackagesResponse).

(** C2.  Strategy B answers with the packages of one timestamp group, the
    selected one: its member count is the number of eligible packages of
    its timestamp, no timestamp has more eligible packages, and a
    timestamp with as many is not more recent. *)
Theorem strategyB_selects_most_supported_timestamp
    now store serviceId response :
  DataPackagesService.getLatestDataPackagesFromDbWithSameTimestamp
    now store serviceId = Some (Ok response) →
  ∃ g,
    Pipeline.aggregateSameTimestamp now store serviceId = [g] ∧
    ag_count g =
      length (Reference.atTimestamp (ag_id_timestampMilliseconds g)
                (Pipeline.eligibleB now store serviceId)) ∧
    (∀ feedId entries entry,
       response !! feedId = Some entries → entry ∈ entries →
       timestampMilliseconds entry = ag_id_timestampMilliseconds g) ∧
    ∀ timestamp,
      length (Reference.atTimestamp timestamp
                (Pipeline.eligibleB now store serviceId)) ≤ ag_count g ∧
      (length (Reference.atTimestamp timestamp
                 (Pipeline.eligibleB now store serviceId)) = ag_count g →
       (timestamp ≤ ag_id_timestampMilliseconds g)%Z).
Proof.
  intros (g & Hagg & Hg & Hfirst & Hcollect & Hne & ->)%strategyB_Ok.
  exists g.
  assert (ag_count g =
          length (Reference.atTimestamp (ag_id_timestampMilliseconds g)
                    (Pipeline.eligibleB now store serviceId))) as Hcount.
  { by rewrite Hcollect at 1. }
  split_and!; [done..| |].
  - intros feedId entries entry Hfeed Hentry.
    apply (parseMember_fold_spec _ _ _) in Hfeed as (_ & _ & Hentries).
    by destruct (Hentries _ Hentry) as (k & first & _ & _ & ->).
  - intros timestamp.
    destruct (Reference.atTimestamp timestamp _) as [|doc docs] eqn:Hat.
    + simpl. split; [lia|]. intros Hzero.
      rewrite <- Hzero in Hcount. symmetry in Hcount.
      by apply nil_length_inv in Hcount.
    + rewrite <- Hat.
      assert (doc ∈ Reference.atTimestamp timestamp
                      (Pipeline.eligibleB now store serviceId))
        as [Hts Hdoc]%list_elem_of_filter
        by (rewrite Hat; apply list_elem_of_here).
      destruct (groupByTimestamp_spec
                  (Pipeline.eligibleB now store serviceId))
        as (_ & Hcover & Hgroup).
      apply Hcover, list_elem_of_fmap in Hdoc as (g' & Hg'ts & Hg').
      rewrite Hts in Hg'ts.
      destruct (Hgroup g' Hg') as [_ Hcollect'].
      assert (ag_count g' =
              length (Reference.atTimestamp timestamp
                        (Pipeline.eligibleB now store serviceId))) as <-.
      { rewrite Hcollect' at 1. by rewrite <- Hg'ts. }
      specialize (Hfirst g' Hg'). unfold Pipeline.moreThenNewerFirst in Hfirst.
      rewrite Hg'ts. lia.
Qed.

(** C3.  In an answer of either strategy no feed holds two entries of one
    signer.  In strategy B, whatever member of the selected group one
    takes, the entry of its signer under its feed is the member of lowest
    index with that signer and feed; a later member with them is not in
    the answer beside it. *)
Theorem responses_hold_one_entry_per_signer now store serviceId :
  (∀ timestamp response feedId entries,
     DataPackagesService.getDataPackagesFromDbByTimestampOrLatest
       now store serviceId timestamp = Ok response →
     response !! feedId = Some entries →
     NoDup (signerAddress <$> entries)) ∧
  (∀ response,
     DataPackagesService.getLatestDataPackagesFromDbWithSameTimestamp
       now store serviceId = Some (Ok response) →
     (∀ feedId entries,
        response !! feedId = Some entries →
        NoDup (signerAddress <$> entries)) ∧
     ∃ g,
       Pipeline.aggregateSameTimestamp now store serviceId = [g] ∧
       ∀ i member,
         Reference.memberAt serviceId g i = Some member →
         ∃ entries k first,
           response !! dataFeedId member = Some entries ∧
           k ≤ i ∧
           Reference.memberAt serviceId g k = Some first ∧
           Pipeline.idOf first = Pipeline.idOf member ∧
           (∀ j earlier, j < k →
              Reference.memberAt serviceId g j = Some earlier →
              Pipeline.idOf earlier ≠ Pipeline.idOf member) ∧
           first ∈ entries ∧
           ∀ entry, entry ∈ entries →
                    signerAddress entry = signerAddress member →
                    entry = first).
Proof.
  split.
  - intros timestamp response feedId entries.
    apply strategyA_signers_NoDup.
  - intros response Hok. split.
    + intros feedId entries.
      exact (strategyB_signers_NoDup _ _ _ _ _ _ Hok).
    + apply strategyB_Ok in Hok
        as (g & Hagg & _ & _ & Hcollect & _ & ->).
      exists g. split; [done|]. intros i member.
      rewrite Hcollect, memberAt_collect. clear Hcollect.
      set (T := ag_id_timestampMilliseconds g).
      set (members := Reference.atTimestamp T _).
      destruct (members !! i) as [m|] eqn:Hi; [|done]. intros [= <-].
      destruct (parseMember_fold_spec T serviceId members)
        as [Hfeeds Hcover]. cbv zeta in *.
      destruct (Hcover m) as (entries & Hlook & Hin).
      { by eapply list_elem_of_lookup_2. }
      apply list_elem_of_fmap in Hin as (entry & Hsigner & Hentry).
      destruct (Hfeeds _ _ Hlook) as (_ & Hnd & Hentries).
      destruct (Hentries _ Hentry) as (k & first & Hfind & Hfeed & ->).
      apply list_find_Some in Hfind as (Hk & _ & Hbefore).
      assert (Pipeline.idOf first = Pipeline.idOf m) as Hid.
      { unfold Pipeline.idOf. simpl in Hsigner. congruence. }
      exists entries, k, (Reference.stamp T serviceId first).
      split_and!.
      * done.
      * destruct (decide (k ≤ i)) as [|Hlt]; [done|].
        destruct (Hbefore i m Hi); [lia|done].
      * by rewrite memberAt_collect, Hk.
      * done.
      * intros j earlier Hj. rewrite memberAt_collect.
        destruct (members !! j) as [m'|] eqn:Hj'; [|done]. intros [= <-].
        intros Heq. apply (Hbefore j m' Hj' Hj).
        change (Pipeline.idOf (Reference.stamp T serviceId m'))
          with (Pipeline.idOf m') in Heq.
        change (Pipeline.idOf (Reference.stamp T serviceId m))
          with (Pipeline.idOf m) in Heq. congruence.
      * done.
      * intros entry' Hentry' Hsigner'.
        apply (NoDup_fmap_eq signerAddress entries); [done..|].
        simpl in *. congruence.
Qed.

(** C4.  With no eligible package either strategy throws the exception
    with the code [EMPTY_DATA_PACKAGE_RESPONSE_ERROR_CODE]; an answer is
    never the empty mapping, nor has it a feed without entries. *)
Theorem empty_window_throws_empty_response now store serviceId :
  (∀ timestamp,
     Pipeline.eligibleA now store serviceId timestamp = [] →
     DataPackagesService.getDataPackagesFromDbByTimestampOrLatest
       now store serviceId timestamp =
     Throw (HttpException "Data packages response is empty"
                          EMPTY_DATA_PACKAGE_RESPONSE_ERROR_CODE)) ∧
  (Pipeline.eligibleB now store serviceId = [] →
   DataPackagesService.getLatestDataPackagesFromDbWithSameTimestamp
     now store serviceId =
   Some (Throw (HttpException "Data packages response is empty"
                              EMPTY_DATA_PACKAGE_RESPONSE_ERROR_CODE))) ∧
  (∀ timestamp response,
     DataPackagesService.getDataPackagesFromDbByTimestampOrLatest
       now store serviceId timestamp = Ok response →
     response ≠ ∅ ∧
     ∀ feedId entries, response !! feedId = Some entries → entries ≠ []) ∧
  (∀ response,
     DataPackagesService.getLatestDataPackagesFromDbWithSameTimestamp
       now store serviceId = Some (Ok response) →
     response ≠ ∅ ∧
     ∀ feedId entries, response !! feedId = Some entries → entries ≠ []).
Proof.
  split_and!.
  - intros timestamp. apply strategyA_empty.
  - intros Hel.
    destruct (strategyB_cases now store serviceId)
      as [[_ ->]|(g & _ & Hg & _)]; [done|].
    rewrite Hel in Hg. by apply elem_of_nil in Hg.
  - intros timestamp response. apply strategyA_Ok_nonempty.
  - intros response. apply strategyB_Ok_nonempty.
Qed.

End claims.

(** ** The window of strategy A *)

Section eligibility.
Context `{Imports}.
Implicit Types (store : list CachedDataPackage) (serviceId : string).

(** C6, amended.  With a timestamp other than 0 the eligible packages are
    the stored packages of the data service at exactly that millisecond;
    with no timestamp they are those at or after the cutoff
    [now - maxAllowedTimestampDelay], the cutoff included.  Every entry of
    an answer is an eligible package. *)
Theorem eligibility_is_exact_or_from_cutoff
    now store serviceId timestamp doc :
  (∀ t, timestamp = Some t → t ≠ 0%Z →
     (doc ∈ Pipeline.eligibleA now store serviceId timestamp ↔
      doc ∈ store ∧ dataServiceId doc = serviceId ∧
      timestampMilliseconds doc = t)) ∧
  (timestamp = None →
     (doc ∈ Pipeline.eligibleA now store serviceId timestamp ↔
      doc ∈ store ∧ dataServiceId doc = serviceId ∧
      (now - maxAllowedTimestampDelay ≤ timestampMilliseconds doc)%Z)) ∧
  (∀ response feedId entries,
     DataPackagesService.getDataPackagesFromDbByTimestampOrLatest
       now store serviceId timestamp = Ok response →
     response !! feedId = Some entries →
     doc ∈ entries →
     doc ∈ Pipeline.eligibleA now store serviceId timestamp).
Proof.
  split_and!.
  - intros t -> Ht. unfold Pipeline.eligibleA.
    rewrite list_elem_of_filter.
    unfold Pipeline.matchByTimestampOrLatest.
    rewrite (bool_decide_eq_true_2 (t ≠ 0%Z)) by done.
    rewrite andb_True, !bool_decide_spec. tauto.
  - intros ->. unfold Pipeline.eligibleA.
    rewrite list_elem_of_filter.
    unfold Pipeline.matchByTimestampOrLatest.
    rewrite andb_True, !bool_decide_spec. tauto.
  - intros response feedId entries Hok Hfeed Hdoc.
    destruct (strategyA_entry_first _ _ _ _ _ _ _ _ Hok Hfeed Hdoc)
      as (_ & i & (Hi & _)%list_find_Some).
    by eapply list_elem_of_lookup_2.
Qed.

End eligibility.

(** ** Preparing a received package *)

Section normalisation.
Context `{SignerRecovery}.
Implicit Types (received : ReceivedDataPackage) (signer serviceId : string).

(** C7.  The feed id of a prepared package is the feed id of its data
    point when it has exactly one, and [ALL_FEEDS_KEY] otherwise. *)
Theorem prepared_feed_is_single_feed_or_all_feeds received signer serviceId :
  dataFeedId
    (DataPackagesService.prepareDataPackageForSaving
       received signer serviceId) =
  match received_dataPoints received with
  | [point] => point_dataFeedId point
  | _ => ALL_FEEDS_KEY
  end.
Proof.
  unfold DataPackagesService.prepareDataPackageForSaving. simpl.
  by destruct (received_dataPoints received) as [|point [|point' points]].
Qed.

(** C8.  [isSignatureValid] is true exactly when the recovery gives the
    claimed signer, and false when the recovery throws; preparing a
    package always gives a package, which carries that flag beside the
    submitted fields, the claimed signer and the data service. *)
Theorem signature_flag_is_recorded received signer serviceId :
  (DataPackagesService.isSignatureValid received signer = true ↔
   recoverDeserializedSignerAddress received = Some signer) ∧
  (recoverDeserializedSignerAddress received = None →
   DataPackagesService.isSignatureValid received signer = false) ∧
  (∀ address, recoverDeserializedSignerAddress received = Some address →
              address ≠ signer →
              DataPackagesService.isSignatureValid received signer = false) ∧
  let prepared :=
    DataPackagesService.prepareDataPackageForSaving
      received signer serviceId in
  isSignatureValid prepared =
    DataPackagesService.isSignatureValid received signer ∧
  signerAddress prepared = signer ∧
  dataServiceId prepared = serviceId ∧
  dataPoints prepared = received_dataPoints received ∧
  timestampMilliseconds prepared = received_timestampMilliseconds received ∧
  signature prepared = received_signature received.
Proof.
  unfold DataPackagesService.isSignatureValid.
  split_and!; try done.
  - destruct (recoverDeserializedSignerAddress received) as [address|];
      [|done].
    rewrite bool_decide_eq_true. split; congruence.
  - by intros ->.
  - intros address -> Hne. by apply bool_decide_eq_false.
Qed.

End normalisation.

(** ** The statistics query *)

Section stats.
Context `{Imports}.
Implicit Types (store : list CachedDataPackage).
Implicit Types (oraclesState : RedstoneOraclesState).
Implicit Types (params : StatsRequestParams).

Lemma foldl_insert_lookup_other {A V} (key : A → string) (val : A → V)
    (items : list A) (m : gmap string V) (k : string) :
  k ∉ key <$> items →
  foldl (λ acc x, <[key x := val x]> acc) m items !! k = m !! k.
Proof.
  revert m. induction items as [|x items IH]; intros m Hout; [done|].
  simpl. rewrite fmap_cons, not_elem_of_cons in Hout.
  destruct Hout as [Hne Hout]. rewrite IH by done.
  by apply lookup_insert_ne.
Qed.

Lemma foldl_insert_lookup_NoDup {A V} (key : A → string) (val : A → V)
    (items : list A) (m : gmap string V) (x : A) :
  NoDup (key <$> items) → x ∈ items →
  foldl (λ acc y, <[key y := val y]> acc) m items !! key x = Some (val x).
Proof.
  revert m. induction items as [|y items IH]; intros m Hnd Hx.
  - by apply elem_of_nil in Hx.
  - simpl. rewrite fmap_cons in Hnd. apply NoDup_cons in Hnd as [Hy Hnd].
    apply elem_of_cons in Hx as [->|Hx].
    + rewrite foldl_insert_lookup_other by done. apply lookup_insert_eq.
    + by apply IH.
Qed.

Lemma foldl_insert_dom {A V} (key : A → string) (val : A → V)
    (items : list A) (m : gmap string V) :
  dom (foldl (λ acc x, <[key x := val x]> acc) m items) =
  dom m ∪ list_to_set (key <$> items).
Proof.
  revert m. induction items as [|x items IH]; intros m; simpl.
  - by rewrite (right_id_L ∅ (∪)).
  - rewrite IH, dom_insert_L.
    rewrite (comm_L (∪) {[key x]} (dom m)).
    by rewrite (assoc_L (∪)).
Qed.

Lemma getDataPackagesStats_Ok oraclesState store params stats :
  DataPackagesService.getDataPackagesStats oraclesState store params
    = Ok stats →
  ¬ (toTimestamp params - fromTimestamp params > 7200000)%Z ∧
  stats =
    foldl (λ (acc : DataPackagesStatsResponse) countPerNode,
             <[evmAddress countPerNode.1 :=
                 {| stats_dataServiceId := node_dataServiceId countPerNode.1;
                    verifiedDataPackagesCount := countPerNode.2;
                    nodeName := name countPerNode.1 |}]> acc)
          ∅
          ((λ node, (node, Pipeline.countDocuments store params node))
             <$> DataPackagesService.Object_values (nodes oraclesState)).
Proof.
  unfold DataPackagesService.getDataPackagesStats.
  case_bool_decide; [done|]. by intros [= <-].
Qed.

(** C9.  The query throws the bad-request exception exactly when
    [toTimestamp - fromTimestamp] exceeds 7200000, and answers otherwise:
    a window of 7200001 ms is refused, one of 7200000 ms is served. *)
Theorem stats_window_is_bounded oraclesState store params :
  ((∃ message,
      DataPackagesService.getDataPackagesStats oraclesState store params =
      Throw (BadRequestException message)) ↔
   (toTimestamp params - fromTimestamp params > 7200000)%Z) ∧
  ((∃ stats,
      DataPackagesService.getDataPackagesStats oraclesState store params =
      Ok stats) ↔
   (toTimestamp params - fromTimestamp params ≤ 7200000)%Z) ∧
  (∃ message,
     DataPackagesService.getDataPackagesStats oraclesState store
       {| fromTimestamp := fromTimestamp params;
          toTimestamp := fromTimestamp params + 7200001 |} =
     Throw (BadRequestException message)) ∧
  (∃ stats,
     DataPackagesService.getDataPackagesStats oraclesState store
       {| fromTimestamp := fromTimestamp params;
          toTimestamp := fromTimestamp params + 7200000 |} =
     Ok stats).
Proof.
  unfold DataPackagesService.getDataPackagesStats. split_and!.
  - case_bool_decide as Hwide; split.
    + intros _. exact Hwide.
    + intros _. eexists. reflexivity.
    + intros [message [=]].
    + intros Hwide'. contradiction.
  - case_bool_decide as Hwide; split.
    + intros [stats [=]].
    + intros Hnarrow. lia.
    + intros _. lia.
    + intros _. eexists. reflexivity.
  - simpl. rewrite bool_decide_eq_true_2 by lia. by eexists.
  - simpl. rewrite bool_decide_eq_false_2 by lia. by eexists.
Qed.

(** C10.  When the nodes of the oracle state have pairwise distinct EVM
    addresses, the statistics hold, under the address of every node, its
    data service, its name and the count of its verified packages in the
    window, which is 0 for a node no stored package matches; the keys are
    the addresses of the nodes and nothing else, one entry a node. *)
Theorem stats_cover_exactly_the_nodes oraclesState store params stats :
  NoDup (evmAddress <$> DataPackagesService.Object_values (nodes oraclesState)) →
  DataPackagesService.getDataPackagesStats oraclesState store params
    = Ok stats →
  (∀ node, node ∈ DataPackagesService.Object_values (nodes oraclesState) →
     stats !! evmAddress node =
     Some {| stats_dataServiceId := node_dataServiceId node;
             verifiedDataPackagesCount :=
               Pipeline.countDocuments store params node;
             nodeName := name node |}) ∧
  (∀ node, node ∈ DataPackagesService.Object_values (nodes oraclesState) →
     Forall (λ doc, Pipeline.matchVerifiedOfNode params node doc = false)
            store →
     stats !! evmAddress node =
     Some {| stats_dataServiceId := node_dataServiceId node;
             verifiedDataPackagesCount := 0;
             nodeName := name node |}) ∧
  (∀ key, is_Some (stats !! key) ↔
          key ∈ evmAddress <$>
                  DataPackagesService.Object_values (nodes oraclesState)) ∧
  size stats =
    length (DataPackagesService.Object_values (nodes oraclesState)).
Proof.
  intros Hnd [_ ->]%getDataPackagesStats_Ok.
  set (values := DataPackagesService.Object_values (nodes oraclesState)) in *.
  set (counted := (λ node, (node, Pipeline.countDocuments store params node))
                    <$> values).
  assert ((λ countPerNode : RedstoneOraclesNode * nat,
             evmAddress countPerNode.1) <$> counted = evmAddress <$> values)
    as Hkeys.
  { unfold counted. by rewrite <- list_fmap_compose. }
  assert (∀ node, node ∈ values →
            foldl (λ (acc : DataPackagesStatsResponse)
                     (countPerNode : RedstoneOraclesNode * nat),
                     <[evmAddress countPerNode.1 :=
                         {| stats_dataServiceId :=
                              node_dataServiceId countPerNode.1;
                            verifiedDataPackagesCount := countPerNode.2;
                            nodeName := name countPerNode.1 |}]> acc)
                  ∅ counted !! evmAddress node =
            Some {| stats_dataServiceId := node_dataServiceId node;
                    verifiedDataPackagesCount :=
                      Pipeline.countDocuments store params node;
                    nodeName := name node |}) as Hentry.
  { intros node Hnode.
    apply (foldl_insert_lookup_NoDup
             (λ countPerNode : RedstoneOraclesNode * nat,
                evmAddress countPerNode.1)
             (λ countPerNode : RedstoneOraclesNode * nat,
                {| stats_dataServiceId := node_dataServiceId countPerNode.1;
                   verifiedDataPackagesCount := countPerNode.2;
                   nodeName := name countPerNode.1 |})
             counted ∅ (node, Pipeline.countDocuments store params node)).
    - by rewrite Hkeys.
    - unfold counted. apply list_elem_of_fmap. by exists node. }
  split_and!.
  - done.
  - intros node Hnode Hnone. rewrite Hentry by done.
    do 2 f_equal. unfold Pipeline.countDocuments.
    assert (filter (λ doc, Pipeline.matchVerifiedOfNode params node doc)
                   store = []) as ->; [|done].
    clear -Hnone. induction Hnone as [|doc docs Hdoc _ IH]; [done|].
    rewrite filter_cons, decide_False; [exact IH|]. rewrite Hdoc. intros [].
  - intros key. rewrite <- elem_of_dom, foldl_insert_dom, Hkeys.
    by rewrite dom_empty_L, (left_id_L ∅ (∪)), elem_of_list_to_set.
  - rewrite <- size_dom, foldl_insert_dom, Hkeys, dom_empty_L, (left_id_L ∅ (∪)).
    rewrite size_list_to_set by done. by rewrite length_fmap.
Qed.

End stats.

(** ** The memoizing wrapper *)

Section memoize.
Context {V : Type}.
Implicit Types (c : Memoize.Cache V) (key : string) (now ttl : Z).

Lemma queriesFor_startQuery key key' c :
  Memoize.queriesFor key (Memoize.startQuery key' c).1 =
  if decide (key' = key) then S (Memoize.queriesFor key c)
  else Memoize.queriesFor key c.
Proof.
  unfold Memoize.queriesFor, Memoize.startQuery. simpl.
  rewrite filter_app, filter_cons, filter_nil, length_app.
  case_decide; simpl; lia.
Qed.

(** A call for a key whose computation is in flight joins it. *)
Lemma call_in_flight now key c computation :
  Memoize.entries c !! key = Some (Memoize.InFlight computation) →
  Memoize.call now key c = (c, Memoize.Awaits computation).
Proof. unfold Memoize.call. by intros ->. Qed.

(** A call leaves alone a computation in flight for [key], the queries
    issued for [key], the queries issued before and the outcomes. *)
Lemma call_preserves_in_flight now key' key c computation :
  Memoize.entries c !! key = Some (Memoize.InFlight computation) →
  Memoize.entries (Memoize.call now key' c).1 !! key =
    Some (Memoize.InFlight computation) ∧
  Memoize.queriesFor key (Memoize.call now key' c).1 =
    Memoize.queriesFor key c ∧
  (∀ i k, Memoize.started c !! i = Some k →
          Memoize.started (Memoize.call now key' c).1 !! i = Some k) ∧
  Memoize.settled (Memoize.call now key' c).1 = Memoize.settled c.
Proof.
  intros Hflight.
  assert (key' ≠ key →
          Memoize.entries (Memoize.startQuery key' c).1 !! key =
            Some (Memoize.InFlight computation) ∧
          Memoize.queriesFor key (Memoize.startQuery key' c).1 =
            Memoize.queriesFor key c ∧
          (∀ i k, Memoize.started c !! i = Some k →
                  Memoize.started (Memoize.startQuery key' c).1 !! i = Some k) ∧
          Memoize.settled (Memoize.startQuery key' c).1 = Memoize.settled c)
    as Hstart.
  { intros Hne. split_and!.
    - simpl. by rewrite lookup_insert_ne.
    - by rewrite queriesFor_startQuery, decide_False.
    - intros i k Hi. simpl. by apply lookup_app_l_Some.
    - done. }
  unfold Memoize.call.
  destruct (Memoize.entries c !! key') as [[running|value expiresAt]|] eqn:Hkey'.
  - done.
  - case_bool_decide; [|done]. apply Hstart. congruence.
  - apply Hstart. congruence.
Qed.

Lemma callAll_preserves_in_flight calls key c computation :
  Memoize.entries c !! key = Some (Memoize.InFlight computation) →
  Memoize.entries (Memoize.callAll calls c) !! key =
    Some (Memoize.InFlight computation) ∧
  Memoize.queriesFor key (Memoize.callAll calls c) =
    Memoize.queriesFor key c ∧
  (∀ i k, Memoize.started c !! i = Some k →
          Memoize.started (Memoize.callAll calls c) !! i = Some k) ∧
  Memoize.settled (Memoize.callAll calls c) = Memoize.settled c.
Proof.
  revert c. induction calls as [|[now key'] calls IH]; intros c Hflight;
    [done|].
  unfold Memoize.callAll. simpl.
  destruct (call_preserves_in_flight now key' key c computation Hflight)
    as (Hentry & Hqueries & Hstarted & Hsettled).
  destruct (IH _ Hentry) as (Hentry' & Hqueries' & Hstarted' & Hsettled').
  unfold Memoize.callAll in *.
  split_and!; [done|congruence|auto|congruence].
Qed.

(** C5.  A call that finds no entry for its key, or an expired one,
    issues one store query.  Whatever calls follow before that query
    completes, a call for the key joins the same computation and no
    further query is issued for the key; those who joined all end with
    the outcome of that computation.  After a success at [settledAt] a
    call up to [settledAt + ttl] is served from the entry, and a later
    one issues a new query; after a failure the next call issues a new
    query. *)
Theorem memoized_query_is_single_flight_with_ttl ttl c key now :
  Memoize.entries c !! key = None ∨
  (∃ value expiresAt,
     Memoize.entries c !! key = Some (Memoize.Filled value expiresAt) ∧
     (expiresAt < now)%Z) →
  ∃ computation,
    Memoize.call now key c = Memoize.startQuery key c ∧
    (Memoize.call now key c).2 = Memoize.Awaits computation ∧
    Memoize.queriesFor key (Memoize.call now key c).1 =
      S (Memoize.queriesFor key c) ∧
    ∀ calls,
      let c2 := Memoize.callAll calls (Memoize.call now key c).1 in
      (∀ now2, Memoize.call now2 key c2 = (c2, Memoize.Awaits computation)) ∧
      Memoize.queriesFor key c2 = S (Memoize.queriesFor key c) ∧
      ∀ settledAt outcome,
        let c3 := Memoize.settle ttl settledAt computation outcome c2 in
        Memoize.outcomeOf c3 (Memoize.Awaits computation) = Some outcome ∧
        Memoize.queriesFor key c3 = S (Memoize.queriesFor key c) ∧
        match outcome with
        | Ok value =>
            (∀ now3, (now3 ≤ settledAt + ttl)%Z →
                     Memoize.call now3 key c3 = (c3, Memoize.Served value)) ∧
            (∀ now3, (settledAt + ttl < now3)%Z →
                     Memoize.call now3 key c3 = Memoize.startQuery key c3 ∧
                     Memoize.queriesFor key (Memoize.call now3 key c3).1 =
                       S (S (Memoize.queriesFor key c)))
        | Throw _ =>
            Memoize.entries c3 !! key = None ∧
            ∀ now3,
              Memoize.call now3 key c3 = Memoize.startQuery key c3 ∧
              Memoize.queriesFor key (Memoize.call now3 key c3).1 =
                S (S (Memoize.queriesFor key c))
        end.
Proof.
  intros Hmiss.
  assert (Memoize.call now key c = Memoize.startQuery key c) as Hcall.
  { unfold Memoize.call.
    destruct Hmiss as [->|(value & expiresAt & -> & Hexpired)]; [done|].
    by rewrite bool_decide_eq_true_2. }
  exists (length (Memoize.started c)). rewrite Hcall.
  split_and!; [done..|by rewrite queriesFor_startQuery, decide_True|].
  intros calls c2.
  assert (Memoize.entries (Memoize.startQuery key c).1 !! key =
          Some (Memoize.InFlight (length (Memoize.started c)))) as Hflight.
  { simpl. apply lookup_insert_eq. }
  destruct (callAll_preserves_in_flight calls key _ _ Hflight)
    as (Hentry & Hqueries & Hstarted & Hsettled).
  fold c2 in Hentry, Hqueries, Hstarted, Hsettled.
  rewrite queriesFor_startQuery, decide_True in Hqueries by done.
  split_and!; [by intros; apply call_in_flight|done|].
  intros settledAt outcome c3.
  assert (Memoize.started c2 !! length (Memoize.started c) = Some key)
    as Hrank.
  { apply Hstarted. simpl. rewrite lookup_app_r by lia.
    by replace (length (Memoize.started c) - length (Memoize.started c))
      with 0 by lia. }
  assert (Memoize.queriesFor key c3 = S (Memoize.queriesFor key c)) as Hq3.
  { unfold c3, Memoize.settle, Memoize.queriesFor in *. by rewrite Hrank. }
  split_and!.
  - unfold c3, Memoize.settle. rewrite Hrank. simpl. apply lookup_insert_eq.
  - done.
  - assert (Memoize.entries c3 =
            match outcome with
            | Ok value =>
                <[key := Memoize.Filled value (settledAt + ttl)]>
                  (Memoize.entries c2)
            | Throw _ => delete key (Memoize.entries c2)
            end) as Hentries.
    { unfold c3, Memoize.settle. rewrite Hrank, Hentry. simpl.
      by rewrite bool_decide_eq_true_2. }
    destruct outcome as [value|e].
    + split.
      * intros now3 Hfresh. unfold Memoize.call.
        rewrite Hentries, lookup_insert_eq.
        by rewrite bool_decide_eq_false_2 by lia.
      * intros now3 Hlate.
        assert (Memoize.call now3 key c3 = Memoize.startQuery key c3) as ->.
        { unfold Memoize.call. rewrite Hentries, lookup_insert_eq.
          by rewrite bool_decide_eq_true_2 by lia. }
        split; [done|].
        by rewrite queriesFor_startQuery, decide_True, Hq3.
    + assert (Memoize.entries c3 !! key = None) as Hgone.
      { rewrite Hentries. apply lookup_delete_eq. }
      split; [done|]. intros now3.
      assert (Memoize.call now3 key c3 = Memoize.startQuery key c3) as ->.
      { unfold Memoize.call. by rewrite Hgone. }
      split; [done|].
      by rewrite queriesFor_startQuery, decide_True, Hq3.
Qed.

End memoize.

(** * Further properties of the queries *)

(** ** Strategy A: which packages, and in which order *)

Section strategyA_answer.
Context `{Imports}.
Implicit Types (store : list CachedDataPackage) (serviceId : string).
Implicit Types (timestamp : option Z) (response : DataPackagesResponse).

#[local] Instance newerFirst_trans : Transitive Pipeline.newerFirst.
Proof. unfold Pipeline.newerFirst. intros g1 g2 g3 ??. lia. Qed.

#[local] Instance newerFirst_total : Total Pipeline.newerFirst.
Proof. unfold Pipeline.newerFirst. intros g1 g2. lia. Qed.

Lemma StronglySorted_filter {A} (R : relation A) (P : A → Prop)
    `{!∀ x, Decision (P x)} (l : list A) :
  StronglySorted R l → StronglySorted R (filter P l).
Proof.
  induction 1 as [|x l Hsorted IH Hall]; [constructor|].
  rewrite filter_cons. case_decide; [|done].
  constructor; [done|].
  apply Forall_forall. intros y [_ Hy]%list_elem_of_filter.
  by eapply Forall_forall in Hall.
Qed.

(** The first eligible document of a signer and feed is in the answer,
    under its feed. *)
Lemma strategyA_first_is_served now store serviceId timestamp response i first :
  DataPackagesService.getDataPackagesFromDbByTimestampOrLatest
    now store serviceId timestamp = Ok response →
  list_find (λ doc, Pipeline.idOf doc = Pipeline.idOf first)
            (Pipeline.eligibleA now store serviceId timestamp)
    = Some (i, first) →
  ∃ entries, response !! dataFeedId first = Some entries ∧ first ∈ entries.
Proof.
  intros Hok Hfind.
  pose proof Hfind as (Hi & _ & _)%list_find_Some.
  destruct (groupBySignerAndFeed_spec
              (Pipeline.eligibleA now store serviceId timestamp))
    as (_ & Hcover & Hfirst).
  assert (first ∈ Pipeline.eligibleA now store serviceId timestamp) as Hin
    by (by eapply list_elem_of_lookup_2).
  apply Hcover, list_elem_of_fmap in Hin as (g & Hid & Hg).
  destruct (Hfirst g Hg) as (i' & doc & Hfind' & ->).
  rewrite <- Hid, Hfind in Hfind'. injection Hfind' as _ <-.
  assert (Pipeline.firstOf first ∈
            filter (λ g, id_dataFeedId (mr_id g) = dataFeedId first)
                   (Pipeline.aggregateMostRecent now store serviceId timestamp))
    as Hkept.
  { apply list_elem_of_filter. split; [done|].
    by apply merge_sort_elem_of. }
  rewrite (strategyA_lookup _ _ _ _ _ (dataFeedId first) Hok).
  destruct (filter _ _) as [|g0 kept] eqn:Hfilter;
    [by apply elem_of_nil in Hkept|].
  eexists. split; [done|]. rewrite <- (entryOfMostRecent_firstOf first).
  by apply list_elem_of_fmap_2.
Qed.

(** X1.  The answer of strategy A holds, under a feed, exactly the stored
    packages of that feed that are the first eligible one, in store order,
    of their signer and feed. *)
Theorem strategyA_answer_is_first_of_each_pair
    now store serviceId timestamp response feedId entry :
  DataPackagesService.getDataPackagesFromDbByTimestampOrLatest
    now store serviceId timestamp = Ok response →
  ((∃ entries, response !! feedId = Some entries ∧ entry ∈ entries) ↔
   dataFeedId entry = feedId ∧
   ∃ i, list_find (λ doc, Pipeline.idOf doc = Pipeline.idOf entry)
                  (Pipeline.eligibleA now store serviceId timestamp)
          = Some (i, entry)).
Proof.
  intros Hok. split.
  - intros (entries & Hfeed & Hentry).
    by eapply strategyA_entry_first.
  - intros [<- [i Hfind]]. by eapply strategyA_first_is_served.
Qed.



(** X3.  Under every feed of an answer of strategy A the entries come
    newest first: no entry is older than one that follows it. *)
Theorem strategyA_feeds_are_newest_first
    now store serviceId timestamp response feedId entries :
  DataPackagesService.getDataPackagesFromDbByTimestampOrLatest
    now store serviceId timestamp = Ok response →
  response !! feedId = Some entries →
  StronglySorted
    (λ entry later,
       (timestampMilliseconds later ≤ timestampMilliseconds entry)%Z)
    entries.
Proof.
  intros Hok Hfeed.
  destruct (strategyA_lookup_Some _ _ _ _ _ _ _ Hok Hfeed) as [_ ->].
  apply (StronglySorted_fmap _ Pipeline.newerFirst); [done|].
  apply StronglySorted_filter.
  apply (StronglySorted_merge_sort Pipeline.newerFirst).
Qed.

(** X4.  A query at an explicit millisecond other than 0 answers only with
    packages of that millisecond, so that an entry is then as recent as any
    eligible package of its signer and feed. *)
Theorem historical_answer_is_at_the_timestamp
    now store serviceId t response feedId entries entry :
  t ≠ 0%Z →
  DataPackagesService.getDataPackagesByTimestamp now store serviceId t
    = Ok response →
  response !! feedId = Some entries →
  entry ∈ entries →
  timestampMilliseconds entry = t ∧
  ∀ doc, doc ∈ Pipeline.eligibleA now store serviceId (Some t) →
         Pipeline.idOf doc = Pipeline.idOf entry →
         (timestampMilliseconds doc ≤ timestampMilliseconds entry)%Z.
Proof.
  intros Ht Hok Hfeed Hentry.
  unfold DataPackagesService.getDataPackagesByTimestamp in Hok.
  assert (∀ doc, doc ∈ Pipeline.eligibleA now store serviceId (Some t) →
                 timestampMilliseconds doc = t) as Hexact.
  { intros doc [Hmatch _]%list_elem_of_filter.
    unfold Pipeline.matchByTimestampOrLatest in Hmatch.
    rewrite (bool_decide_eq_true_2 (t ≠ 0%Z)) in Hmatch by done.
    by apply andb_True in Hmatch as [_ ?%bool_decide_spec]. }
  assert (entry ∈ Pipeline.eligibleA now store serviceId (Some t)) as Hin.
  { destruct (strategyA_entry_first _ _ _ _ _ _ _ _ Hok Hfeed Hentry)
      as (_ & i & (Hi & _)%list_find_Some).
    by eapply list_elem_of_lookup_2. }
  split; [by apply Hexact|].
  intros doc Hdoc _. rewrite (Hexact doc Hdoc), (Hexact entry Hin). lia.
Qed.

End strategyA_answer.


(** ** Strategy B: which packages, and in which order *)

Section strategyB_answer.
Context `{Imports}.
Implicit Types (store : list CachedDataPackage) (serviceId : string).
Implicit Types (response : DataPackagesResponse).

Lemma eligibleB_elem_of now store serviceId doc :
  doc ∈ Pipeline.eligibleB now store serviceId ↔
  doc ∈ store ∧ dataServiceId doc = serviceId ∧
  (now - maxAllowedTimestampDelay ≤ timestampMilliseconds doc)%Z.
Proof.
  unfold Pipeline.eligibleB, Pipeline.matchLatest.
  rewrite list_elem_of_filter, andb_True, !bool_decide_spec. tauto.
Qed.

(** The loop stamps a member with what the member already has. *)
Lemma stamp_member now store serviceId T member :
  member ∈ Reference.atTimestamp T (Pipeline.eligibleB now store serviceId) →
  Reference.stamp T serviceId member = member.
Proof.
  intros [Hts (_ & Hservice & _)%eligibleB_elem_of]%list_elem_of_filter.
  destruct member. unfold Reference.stamp. simpl in *. by subst.
Qed.

(** The entries the loop files under a feed come in the order of the
    members. *)
Lemma parseMember_fold_sublist T serviceId members feedId entries :
  foldl (Reference.parseMember T serviceId) ∅ members !! feedId
    = Some entries →
  entries `sublist_of`
    (Reference.stamp T serviceId <$>
       filter (λ member, dataFeedId member = feedId) members).
Proof.
  revert entries.
  induction members as [|member members IH] using rev_ind; intros entries.
  - simpl. by intros ?%lookup_empty_Some.
  - rewrite foldl_snoc, filter_app, fmap_app.
    unfold Reference.parseMember at 1.
    destruct (DataPackagesService.isSignerAddressAlreadyInDbResponseForDataFeed
                _ _).
    + intros Hlook. by apply sublist_inserts_r, IH.
    + rewrite pushToFeed_lookup, filter_cons, filter_nil.
      case_decide as Hfeed.
      * intros [= <-]. rewrite Hfeed. apply sublist_app; [|done].
        destruct (foldl _ ∅ members !! feedId) as [old|] eqn:Hold; simpl.
        -- by apply IH.
        -- apply sublist_nil_l.
      * intros Hlook. rewrite app_nil_r. by apply IH.
Qed.

(** The selected group and what the loop files under a feed. *)
Lemma strategyB_elem_of
    now store serviceId response :
  DataPackagesService.getLatestDataPackagesFromDbWithSameTimestamp
    now store serviceId = Some (Ok response) →
  ∃ g,
    Pipeline.aggregateSameTimestamp now store serviceId = [g] ∧
    (now - maxAllowedTimestampDelay ≤ ag_id_timestampMilliseconds g)%Z ∧
    ∀ feedId entry,
      (∃ entries, response !! feedId = Some entries ∧ entry ∈ entries) ↔
      dataFeedId entry = feedId ∧
      ∃ i, list_find (λ doc, Pipeline.idOf doc = Pipeline.idOf entry)
                     (Reference.atTimestamp (ag_id_timestampMilliseconds g)
                        (Pipeline.eligibleB now store serviceId))
             = Some (i, entry).
Proof.
  intros (g & Hagg & _ & _ & _ & Hne & ->)%strategyB_Ok.
  exists g. split; [done|].
  set (T := ag_id_timestampMilliseconds g) in *.
  set (members := Reference.atTimestamp T _) in *.
  destruct (parseMember_fold_spec T serviceId members) as [Hfeeds Hcover].
  cbv zeta in *. split.
  - destruct members as [|member rest] eqn:Hmembers; [done|].
    assert (member ∈ members) as [<- Hin%eligibleB_elem_of]%list_elem_of_filter
      by (rewrite Hmembers; apply list_elem_of_here).
    tauto.
  - intros feedId entry. split.
    + intros (entries & Hlook & Hentry).
      destruct (Hfeeds _ _ Hlook) as (_ & _ & Hentries).
      destruct (Hentries _ Hentry) as (k & first & Hfind & Hfeed & ->).
      pose proof Hfind as (Hk & _ & _)%list_find_Some.
      rewrite (stamp_member now store serviceId) by
        (by eapply list_elem_of_lookup_2).
      split; [done|]. by exists k.
    + intros [<- [i Hfind]].
      pose proof Hfind as (Hi & _ & _)%list_find_Some.
      assert (entry ∈ members) as Hin by (by eapply list_elem_of_lookup_2).
      destruct (Hcover entry Hin) as (entries & Hlook & Hsigner).
      exists entries. split; [done|].
      apply list_elem_of_fmap in Hsigner as (kept & Hsame & Hkept).
      destruct (Hfeeds _ _ Hlook) as (_ & _ & Hentries).
      destruct (Hentries _ Hkept) as (k & first & Hfind' & Hfeed & ->).
      pose proof Hfind' as (Hk & _ & _)%list_find_Some.
      rewrite (stamp_member now store serviceId) in Hsame, Hkept
        by (by eapply list_elem_of_lookup_2).
      assert (Pipeline.idOf first = Pipeline.idOf entry) as Hid
        by (unfold Pipeline.idOf; congruence).
      rewrite Hid, Hfind in Hfind'. by injection Hfind' as _ <-.
Qed.

(** X5.  The answer of strategy B holds, under a feed, exactly the stored
    packages of that feed and of the selected timestamp that are the first
    eligible one, in store order, of their signer and feed at that
    timestamp; the selected timestamp is not older than the cutoff. *)
Theorem strategyB_answer_is_first_of_each_pair_at_timestamp
    now store serviceId response :
  DataPackagesService.getLatestDataPackagesFromDbWithSameTimestamp
    now store serviceId = Some (Ok response) →
  ∃ g,
    Pipeline.aggregateSameTimestamp now store serviceId = [g] ∧
    (now - maxAllowedTimestampDelay ≤ ag_id_timestampMilliseconds g)%Z ∧
    ∀ feedId entry,
      (∃ entries, response !! feedId = Some entries ∧ entry ∈ entries) ↔
      dataFeedId entry = feedId ∧
      ∃ i, list_find (λ doc, Pipeline.idOf doc = Pipeline.idOf entry)
                     (Reference.atTimestamp (ag_id_timestampMilliseconds g)
                        (Pipeline.eligibleB now store serviceId))
             = Some (i, entry).
Proof. apply strategyB_elem_of. Qed.

(** X6.  Under every feed of an answer of strategy B the entries come in
    store order: they are a subsequence of the eligible packages. *)
Theorem strategyB_feeds_are_in_store_order
    now store serviceId response feedId entries :
  DataPackagesService.getLatestDataPackagesFromDbWithSameTimestamp
    now store serviceId = Some (Ok response) →
  response !! feedId = Some entries →
  entries `sublist_of` Pipeline.eligibleB now store serviceId ∧
  entries `sublist_of` store.
Proof.
  intros (g & _ & _ & _ & _ & _ & ->)%strategyB_Ok Hfeed.
  apply parseMember_fold_sublist in Hfeed.
  assert (entries `sublist_of` Pipeline.eligibleB now store serviceId) as Hsub.
  { etrans; [exact Hfeed|].
    set (kept := filter _ (Reference.atTimestamp _ _)).
    assert (Reference.stamp (ag_id_timestampMilliseconds g) serviceId <$> kept
            = kept) as ->.
    { apply list_eq. intros i. rewrite list_lookup_fmap.
      destruct (kept !! i) as [member|] eqn:Hi; [|done]. simpl. f_equal.
      apply (stamp_member now store).
      apply list_elem_of_lookup_2 in Hi.
      by apply list_elem_of_filter in Hi as [_ ?]. }
    etrans; apply sublist_filter. }
  split; [done|]. etrans; [exact Hsub|]. apply sublist_filter.
Qed.


End strategyB_answer.


(** ** The two strategies side by side *)

Section strategies.
Context `{Imports}.
Implicit Types (store : list CachedDataPackage) (serviceId : string).

Lemma eligibleA_at_selected now now' store serviceId T :
  T ≠ 0%Z →
  (now - maxAllowedTimestampDelay ≤ T)%Z →
  Pipeline.eligibleA now' store serviceId (Some T) =
  Reference.atTimestamp T (Pipeline.eligibleB now store serviceId).
Proof.
  intros Hzero Hcutoff.
  unfold Pipeline.eligibleA, Pipeline.eligibleB, Reference.atTimestamp.
  rewrite list_filter_filter. apply list_filter_iff. intros doc.
  unfold Pipeline.matchByTimestampOrLatest, Pipeline.matchLatest.
  rewrite (bool_decide_eq_true_2 (T ≠ 0%Z)) by done.
  rewrite !andb_True, !bool_decide_spec. split; [|tauto].
  intros [? ->]. tauto.
Qed.

(** X8.  The answer of strategy B is the answer of the query at the
    explicit millisecond that strategy B selected, when that is not 0:
    under every feed the two hold the same packages, in some order. *)
Theorem strategyB_is_historical_answer_at_selected_timestamp
    now now' store serviceId responseB g :
  DataPackagesService.getLatestDataPackagesFromDbWithSameTimestamp
    now store serviceId = Some (Ok responseB) →
  Pipeline.aggregateSameTimestamp now store serviceId = [g] →
  ag_id_timestampMilliseconds g ≠ 0%Z →
  ∃ responseA,
    DataPackagesService.getDataPackagesByTimestamp
      now' store serviceId (ag_id_timestampMilliseconds g) = Ok responseA ∧
    ∀ feedId,
      option_Forall2 (≡ₚ) (responseA !! feedId) (responseB !! feedId).
Proof.
  intros HokB Hagg Hzero.
  destruct (strategyB_elem_of _ _ _ _ HokB) as (g' & Hagg' & Hcutoff & HcharB).
  rewrite Hagg in Hagg'. injection Hagg' as <-.
  set (T := ag_id_timestampMilliseconds g) in *.
  pose proof (eligibleA_at_selected now now' store serviceId T Hzero Hcutoff)
    as Heligible.
  unfold DataPackagesService.getDataPackagesByTimestamp.
  destruct (DataPackagesService.getDataPackagesFromDbByTimestampOrLatest
              now' store serviceId (Some T)) as [responseA|e] eqn:HokA.
  - exists responseA. split; [done|]. intros feedId.
    assert (∀ entry,
              (∃ entries, responseA !! feedId = Some entries ∧ entry ∈ entries) ↔
              (∃ entries, responseB !! feedId = Some entries ∧ entry ∈ entries))
      as Hsame.
    { intros entry. rewrite HcharB, <- Heligible. split.
      - intros (entries & Hfeed & Hentry). by eapply strategyA_entry_first.
      - intros [<- [i Hfind]]. by eapply strategyA_first_is_served. }
    destruct (responseA !! feedId) as [entriesA|] eqn:HA;
      destruct (responseB !! feedId) as [entriesB|] eqn:HB.
    + constructor. apply NoDup_Permutation.
      * eapply NoDup_fmap_1. by eapply strategyA_signers_NoDup.
      * eapply NoDup_fmap_1. by eapply strategyB_signers_NoDup.
      * intros entry. split.
        -- intros Hentry.
           destruct (proj1 (Hsame entry)) as (? & [= <-] & ?); [by eexists|done].
        -- intros Hentry.
           destruct (proj2 (Hsame entry)) as (? & [= <-] & ?); [by eexists|done].
    + exfalso.
      destruct (strategyA_Ok_nonempty _ _ _ _ _ HokA) as [_ Hne].
      destruct entriesA as [|entry rest]; [by eapply Hne|].
      destruct (proj1 (Hsame entry)) as (? & [=] & _).
      eexists. split; [done|apply list_elem_of_here].
    + exfalso.
      destruct (strategyB_Ok_nonempty _ _ _ _ HokB) as [_ Hne].
      destruct entriesB as [|entry rest]; [by eapply Hne|].
      destruct (proj2 (Hsame entry)) as (? & [=] & _).
      eexists. split; [done|apply list_elem_of_here].
    + constructor.
  - exfalso.
    apply strategyB_Ok in HokB as (g' & Hagg' & _ & _ & _ & Hne & _).
    rewrite Hagg in Hagg'. injection Hagg' as <-. fold T in Hne.
    unfold DataPackagesService.getDataPackagesFromDbByTimestampOrLatest in HokA.
    case_bool_decide as Hlen; [|done].
    apply nil_length_inv, merge_sort_nil_inv in Hlen.
    destruct (Reference.atTimestamp _ _) as [|member rest] eqn:Hat; [done|].
    assert (member ∈ Pipeline.eligibleA now' store serviceId (Some T)) as Hin.
    { rewrite Heligible. apply list_elem_of_here. }
    destruct (groupBySignerAndFeed_spec
                (Pipeline.eligibleA now' store serviceId (Some T)))
      as (_ & Hcover & _).
    apply Hcover in Hin. rewrite Hlen in Hin. by apply elem_of_nil in Hin.
Qed.

(** X9.  Neither strategy looks at the documents of another data service:
    two stores with the same documents of the service, in the same order,
    get the same answers. *)
Theorem answers_depend_on_the_service_only
    now store store' serviceId timestamp :
  filter (λ doc, dataServiceId doc = serviceId) store =
  filter (λ doc, dataServiceId doc = serviceId) store' →
  DataPackagesService.getDataPackagesFromDbByTimestampOrLatest
    now store serviceId timestamp =
  DataPackagesService.getDataPackagesFromDbByTimestampOrLatest
    now store' serviceId timestamp ∧
  DataPackagesService.getLatestDataPackagesFromDbWithSameTimestamp
    now store serviceId =
  DataPackagesService.getLatestDataPackagesFromDbWithSameTimestamp
    now store' serviceId.
Proof.
  intros Hsame.
  assert (Pipeline.eligibleA now store serviceId timestamp =
          Pipeline.eligibleA now store' serviceId timestamp) as HA.
  { unfold Pipeline.eligibleA.
    rewrite <- (list_filter_filter_l _ (λ doc, dataServiceId doc = serviceId)
                  store),
            <- (list_filter_filter_l _ (λ doc, dataServiceId doc = serviceId)
                  store'); [by rewrite Hsame| |];
      intros doc; unfold Pipeline.matchByTimestampOrLatest;
      by intros [?%bool_decide_spec _]%andb_True. }
  assert (Pipeline.eligibleB now store serviceId =
          Pipeline.eligibleB now store' serviceId) as HB.
  { unfold Pipeline.eligibleB.
    rewrite <- (list_filter_filter_l _ (λ doc, dataServiceId doc = serviceId)
                  store),
            <- (list_filter_filter_l _ (λ doc, dataServiceId doc = serviceId)
                  store'); [by rewrite Hsame| |];
      intros doc; unfold Pipeline.matchLatest;
      by intros [?%bool_decide_spec _]%andb_True. }
  unfold DataPackagesService.getDataPackagesFromDbByTimestampOrLatest,
    DataPackagesService.getLatestDataPackagesFromDbWithSameTimestamp,
    Pipeline.aggregateMostRecent, Pipeline.aggregateSameTimestamp.
  by rewrite HA, HB.
Qed.

End strategies.


(** ** The statistics query, beyond distinct addresses *)

Section stats_more.
Context `{Imports}.
Implicit Types (store : list CachedDataPackage).
Implicit Types (oraclesState : RedstoneOraclesState).
Implicit Types (params : StatsRequestParams).

(** A fold of assignments leaves under a key what the last item of that
    key assigned. *)
Lemma foldl_insert_lookup_last {A V} (key : A → string) (val : A → V)
    (items : list A) (m : gmap string V) (k : string) :
  foldl (λ acc x, <[key x := val x]> acc) m items !! k =
  match last (filter (λ x, key x = k) items) with
  | Some x => Some (val x)
  | None => m !! k
  end.
Proof.
  induction items as [|x items IH] using rev_ind; [done|].
  rewrite foldl_snoc, filter_app, filter_cons, filter_nil, lookup_insert.
  destruct (decide (key x = k)) as [Hk|Hk].
  - by rewrite last_snoc.
  - by rewrite app_nil_r.
Qed.

Lemma getDataPackagesStats_lookup oraclesState store params stats key :
  DataPackagesService.getDataPackagesStats oraclesState store params
    = Ok stats →
  stats !! key =
  (λ node, {| stats_dataServiceId := node_dataServiceId node;
              verifiedDataPackagesCount :=
                Pipeline.countDocuments store params node;
              nodeName := name node |})
    <$> last (filter (λ node, evmAddress node = key)
                     (DataPackagesService.Object_values (nodes oraclesState))).
Proof.
  intros [_ ->]%getDataPackagesStats_Ok.
  rewrite (foldl_insert_lookup_last
             (λ countPerNode : RedstoneOraclesNode * nat,
                evmAddress countPerNode.1)
             (λ countPerNode : RedstoneOraclesNode * nat,
                {| stats_dataServiceId := node_dataServiceId countPerNode.1;
                   verifiedDataPackagesCount := countPerNode.2;
                   nodeName := name countPerNode.1 |})).
  rewrite lookup_empty.
  induction (DataPackagesService.Object_values (nodes oraclesState))
    as [|node values IH] using rev_ind; [done|].
  rewrite fmap_app, !filter_app. simpl. rewrite !filter_cons, !filter_nil.
  simpl. case_decide.
  - by rewrite !last_snoc.
  - by rewrite !app_nil_r.
Qed.

(** X10.  Whatever the addresses of the nodes, the statistics hold under an
    address the data service, the name and the count of the last node, in
    the enumeration order of the state, that has that address; an address
    of no node is not a key. *)
Theorem stats_entry_is_of_the_last_node_with_the_address
    oraclesState store params stats key :
  DataPackagesService.getDataPackagesStats oraclesState store params
    = Ok stats →
  match last (filter (λ node, evmAddress node = key)
                     (DataPackagesService.Object_values (nodes oraclesState)))
  with
  | Some node =>
      stats !! key =
      Some {| stats_dataServiceId := node_dataServiceId node;
              verifiedDataPackagesCount :=
                Pipeline.countDocuments store params node;
              nodeName := name node |}
  | None => stats !! key = None
  end.
Proof.
  intros Hok. rewrite (getDataPackagesStats_lookup _ _ _ _ key Hok).
  by destruct (last _).
Qed.

(** A document in a window is in exactly one of its two parts. *)
Lemma matchVerifiedOfNode_split from mid to node doc :
  (from - 1 ≤ mid ≤ to)%Z →
  Pipeline.matchVerifiedOfNode
    {| fromTimestamp := from; toTimestamp := to |} node doc =
  Pipeline.matchVerifiedOfNode
    {| fromTimestamp := from; toTimestamp := mid |} node doc ||
  Pipeline.matchVerifiedOfNode
    {| fromTimestamp := mid + 1; toTimestamp := to |} node doc ∧
  Pipeline.matchVerifiedOfNode
    {| fromTimestamp := from; toTimestamp := mid |} node doc &&
  Pipeline.matchVerifiedOfNode
    {| fromTimestamp := mid + 1; toTimestamp := to |} node doc = false.
Proof.
  intros Hmid. unfold Pipeline.matchVerifiedOfNode. simpl.
  repeat case_bool_decide; simpl; split; first [done | lia].
Qed.

(** X11.  Splitting a window at [mid] splits the counts: for every key the
    count over [[fromTimestamp, toTimestamp]] is the sum of the counts over
    [[fromTimestamp, mid]] and [[mid + 1, toTimestamp]]. *)
Theorem stats_counts_add_over_adjacent_windows
    oraclesState store from mid to whole early late key entry :
  (from - 1 ≤ mid ≤ to)%Z →
  DataPackagesService.getDataPackagesStats oraclesState store
    {| fromTimestamp := from; toTimestamp := to |} = Ok whole →
  DataPackagesService.getDataPackagesStats oraclesState store
    {| fromTimestamp := from; toTimestamp := mid |} = Ok early →
  DataPackagesService.getDataPackagesStats oraclesState store
    {| fromTimestamp := mid + 1; toTimestamp := to |} = Ok late →
  whole !! key = Some entry →
  ∃ entryEarly entryLate,
    early !! key = Some entryEarly ∧
    late !! key = Some entryLate ∧
    verifiedDataPackagesCount entry =
      verifiedDataPackagesCount entryEarly +
      verifiedDataPackagesCount entryLate.
Proof.
  intros Hmid Hwhole Hearly Hlate.
  rewrite (getDataPackagesStats_lookup _ _ _ _ key Hwhole),
          (getDataPackagesStats_lookup _ _ _ _ key Hearly),
          (getDataPackagesStats_lookup _ _ _ _ key Hlate).
  destruct (last _) as [node|]; [|done]. simpl. intros [= <-].
  do 2 eexists. split_and!; [done..|]. simpl.
  unfold Pipeline.countDocuments. clear -Hmid.
  induction store as [|doc store IH]; [done|].
  rewrite !filter_cons.
  destruct (matchVerifiedOfNode_split from mid to node doc Hmid)
    as [Hsplit Hdisjoint].
  rewrite Hsplit.
  destruct (Pipeline.matchVerifiedOfNode
              {| fromTimestamp := from; toTimestamp := mid |} node doc),
           (Pipeline.matchVerifiedOfNode
              {| fromTimestamp := mid + 1; toTimestamp := to |} node doc);
    simpl in *; try done; rewrite IH; lia.
Qed.

(** X12.  When the nodes have pairwise distinct addresses no stored package
    is counted for two of them: the counts of all nodes together are at
    most the number of stored packages in the window whose signature is
    valid. *)
Theorem stats_count_no_package_twice oraclesState store params stats :
  NoDup (evmAddress <$> DataPackagesService.Object_values (nodes oraclesState)) →
  DataPackagesService.getDataPackagesStats oraclesState store params
    = Ok stats →
  sum_list_with
    (λ node, from_option verifiedDataPackagesCount 0
               (stats !! evmAddress node))
    (DataPackagesService.Object_values (nodes oraclesState)) ≤
  length (filter (λ doc,
                    (fromTimestamp params ≤ timestampMilliseconds doc)%Z ∧
                    (timestampMilliseconds doc ≤ toTimestamp params)%Z ∧
                    isSignatureValid doc = true)
                 store).
Proof.
  intros Hnd Hok.
  set (values := DataPackagesService.Object_values (nodes oraclesState)) in *.
  assert (sum_list_with
            (λ node, from_option verifiedDataPackagesCount 0
                       (stats !! evmAddress node)) values =
          sum_list_with (Pipeline.countDocuments store params) values) as ->.
  { assert (∀ node, node ∈ values →
              stats !! evmAddress node =
              Some {| stats_dataServiceId := node_dataServiceId node;
                      verifiedDataPackagesCount :=
                        Pipeline.countDocuments store params node;
                      nodeName := name node |}) as Hentry.
    { intros node Hnode.
      apply getDataPackagesStats_Ok in Hok as [_ ->].
      apply (foldl_insert_lookup_NoDup
               (λ countPerNode : RedstoneOraclesNode * nat,
                  evmAddress countPerNode.1)
               (λ countPerNode : RedstoneOraclesNode * nat,
                  {| stats_dataServiceId := node_dataServiceId countPerNode.1;
                     verifiedDataPackagesCount := countPerNode.2;
                     nodeName := name countPerNode.1 |})
               _ ∅ (node, Pipeline.countDocuments store params node)).
      - by rewrite <- list_fmap_compose.
      - apply list_elem_of_fmap. by exists node. }
    clear Hnd Hok. induction values as [|node values IH]; [done|].
    simpl. rewrite Hentry by apply list_elem_of_here. simpl.
    rewrite IH; [done|]. intros node' Hnode'.
    by apply Hentry, list_elem_of_further. }
  clear Hok stats. unfold Pipeline.countDocuments.
  induction store as [|doc store IH].
  { simpl. clear. induction values as [|node values IH]; simpl; lia. }
  assert (sum_list_with
            (λ node, length (filter
               (λ doc', Pipeline.matchVerifiedOfNode params node doc')
               (doc :: store))) values =
          sum_list_with
            (λ node, if decide (Pipeline.matchVerifiedOfNode params node doc)
                     then 1 else 0) values +
          sum_list_with
            (λ node, length (filter
               (λ doc', Pipeline.matchVerifiedOfNode params node doc')
               store)) values) as ->.
  { clear. induction values as [|node values IH']; [done|].
    simpl. rewrite IH', filter_cons. case_decide; simpl; lia. }
  assert (sum_list_with
            (λ node, if decide (Pipeline.matchVerifiedOfNode params node doc)
                     then 1 else 0) values ≤
          if decide ((fromTimestamp params ≤ timestampMilliseconds doc)%Z ∧
                     (timestampMilliseconds doc ≤ toTimestamp params)%Z ∧
                     isSignatureValid doc = true)
          then 1 else 0) as Hone.
  { clear IH. induction values as [|node values IH']; [simpl; lia|].
    rewrite fmap_cons in Hnd. apply NoDup_cons in Hnd as [Hfresh Hnd].
    simpl. specialize (IH' Hnd).
    destruct (decide (Pipeline.matchVerifiedOfNode params node doc))
      as [Hmatch|]; [|lia].
    unfold Pipeline.matchVerifiedOfNode in Hmatch.
    rewrite !andb_True, !bool_decide_spec in Hmatch.
    destruct Hmatch as ((((? & ?) & ?) & Hsigner) & ?).
    rewrite decide_True by done.
    assert (sum_list_with
              (λ node', if decide (Pipeline.matchVerifiedOfNode params node' doc)
                        then 1 else 0) values = 0) as ->; [|lia].
    clear IH' Hnd. induction values as [|node' values IH'']; [done|].
    simpl. rewrite fmap_cons, not_elem_of_cons in Hfresh.
    destruct Hfresh as [Hne Hfresh]. rewrite IH'' by done.
    rewrite decide_False; [done|].
    unfold Pipeline.matchVerifiedOfNode.
    rewrite !andb_True, !bool_decide_spec. intros ((((? & ?) & ?) & ?) & ?).
    congruence. }
  rewrite filter_cons. case_decide; simpl; lia.
Qed.

End stats_more.


(** ** From a received batch to the queries *)

Section ingestion.
Context `{SignerRecovery} `{!ServiceLookup}.
Implicit Types (store : list CachedDataPackage).
Implicit Types (received : list ReceivedDataPackage) (signer : string).

(** A batch is prepared as a whole or not at all.  When the registry
    knows the signer, every received package has its prepared package at
    the same place, invalid signatures included, and all of them carry the
    signer and its data service; when the lookup throws, its exception is
    the outcome. *)
Lemma batch_is_prepared_in_place oracleRegistryState received signer :
  match getDataServiceIdForSigner oracleRegistryState signer with
  | Ok serviceId =>
      ∃ prepared,
        BulkSaving.prepareReceivedDataPackagesForBulkSaving
          oracleRegistryState received signer = Ok prepared ∧
        length prepared = length received ∧
        (∀ i, prepared !! i =
              (λ r, DataPackagesService.prepareDataPackageForSaving
                      r signer serviceId) <$> received !! i) ∧
        Forall (λ p, signerAddress p = signer ∧ dataServiceId p = serviceId)
               prepared
  | Throw e =>
      BulkSaving.prepareReceivedDataPackagesForBulkSaving
        oracleRegistryState received signer = Throw e
  end.
Proof.
  unfold BulkSaving.prepareReceivedDataPackagesForBulkSaving.
  destruct (getDataServiceIdForSigner oracleRegistryState signer)
    as [serviceId|e]; [|done].
  eexists. split_and!; [done| | |].
  - by rewrite length_fmap.
  - intros i. by rewrite list_lookup_fmap.
  - apply Forall_fmap, Forall_forall. by intros r _.
Qed.


End ingestion.


(** * The service on concrete stores *)

#[local] Existing Instance Sample.imports.

(** C1.  One signer reports ["ETH"] at 1000 and again at 2000, and the
    older report is stored first.  Both are eligible at time 2000, and
    strategy A answers with the report of 1000: [$first] takes the first
    document of the group in the order [$match] delivers them, and the only
    [$sort] of the pipeline comes after [$group]. *)
Theorem strategyA_answers_with_first_stored_report :
  Pipeline.eligibleA 2000 Sample.twoReports "demo" None = Sample.twoReports ∧
  DataPackagesService.getDataPackagesFromDbByTimestampOrLatest
    2000 Sample.twoReports "demo" None =
  Ok {[ "ETH" := [Sample.package "0xA" "ETH" 1000 "older"] ]} ∧
  (timestampMilliseconds (Sample.package "0xA" "ETH" 1000 "older") <
   timestampMilliseconds (Sample.package "0xA" "ETH" 2000 "newer"))%Z.
Proof. split_and!; vm_compute; reflexivity. Qed.

(** C6, as stated, fails twice.  With no timestamp a package exactly at the
    cutoff is eligible, though it is not newer than the cutoff; with the
    timestamp 0 the same package is eligible, though it is not at
    millisecond 0. *)
Lemma eligibility_includes_cutoff_and_ignores_zero :
  (Sample.atCutoff ∈
     Pipeline.eligibleA 200000 [Sample.atCutoff] "demo" None ∧
   ¬ (200000 - maxAllowedTimestampDelay <
      timestampMilliseconds Sample.atCutoff)%Z) ∧
  (Sample.atCutoff ∈
     Pipeline.eligibleA 200000 [Sample.atCutoff] "demo" (Some 0%Z) ∧
   timestampMilliseconds Sample.atCutoff ≠ 0%Z).
Proof.
  split; split.
  - vm_compute. apply list_elem_of_here.
  - vm_compute. intros [=].
  - vm_compute. apply list_elem_of_here.
  - vm_compute. intros [=].
Qed.

Lemma strategyB_selects_most_supported_timestamp_witness :
  DataPackagesService.getLatestDataPackagesFromDbWithSameTimestamp
    2000 Sample.twoRounds "demo" = Some (Ok Sample.twoRoundsAnswer) ∧
  ∃ g,
    Pipeline.aggregateSameTimestamp 2000 Sample.twoRounds "demo" = [g] ∧
    ag_count g =
      length (Reference.atTimestamp (ag_id_timestampMilliseconds g)
                (Pipeline.eligibleB 2000 Sample.twoRounds "demo")) ∧
    (∀ feedId entries entry,
       Sample.twoRoundsAnswer !! feedId = Some entries → entry ∈ entries →
       timestampMilliseconds entry = ag_id_timestampMilliseconds g) ∧
    ∀ timestamp,
      length (Reference.atTimestamp timestamp
                (Pipeline.eligibleB 2000 Sample.twoRounds "demo")) ≤ ag_count g ∧
      (length (Reference.atTimestamp timestamp
                 (Pipeline.eligibleB 2000 Sample.twoRounds "demo")) = ag_count g →
       (timestamp ≤ ag_id_timestampMilliseconds g)%Z).
Proof.
  assert (DataPackagesService.getLatestDataPackagesFromDbWithSameTimestamp
            2000 Sample.twoRounds "demo" = Some (Ok Sample.twoRoundsAnswer))
    as Hrun by (vm_compute; reflexivity).
  split; [exact Hrun|].
  exact (strategyB_selects_most_supported_timestamp
           2000 Sample.twoRounds "demo" Sample.twoRoundsAnswer Hrun).
Defined.

Lemma responses_hold_one_entry_per_signer_witness :
  DataPackagesService.getDataPackagesFromDbByTimestampOrLatest
    2000 Sample.twoRounds "demo" None = Ok Sample.twoRoundsAnswer ∧
  DataPackagesService.getLatestDataPackagesFromDbWithSameTimestamp
    2000 Sample.twoRounds "demo" = Some (Ok Sample.twoRoundsAnswer) ∧
  Sample.twoRoundsAnswer !! "ETH" =
    Some [ Sample.package "0xA" "ETH" 1000 "a1";
           Sample.package "0xB" "ETH" 1000 "b1" ] ∧
  NoDup (signerAddress <$> [ Sample.package "0xA" "ETH" 1000 "a1";
                             Sample.package "0xB" "ETH" 1000 "b1" ]) ∧
  ∃ g,
    Pipeline.aggregateSameTimestamp 2000 Sample.twoRounds "demo" = [g] ∧
    ∀ i member,
      Reference.memberAt "demo" g i = Some member →
      ∃ entries k first,
        Sample.twoRoundsAnswer !! dataFeedId member = Some entries ∧
        k ≤ i ∧
        Reference.memberAt "demo" g k = Some first ∧
        Pipeline.idOf first = Pipeline.idOf member ∧
        (∀ j earlier, j < k →
           Reference.memberAt "demo" g j = Some earlier →
           Pipeline.idOf earlier ≠ Pipeline.idOf member) ∧
        first ∈ entries ∧
        ∀ entry, entry ∈ entries →
                 signerAddress entry = signerAddress member →
                 entry = first.
Proof.
  assert (DataPackagesService.getDataPackagesFromDbByTimestampOrLatest
            2000 Sample.twoRounds "demo" None = Ok Sample.twoRoundsAnswer)
    as HrunA by (vm_compute; reflexivity).
  assert (DataPackagesService.getLatestDataPackagesFromDbWithSameTimestamp
            2000 Sample.twoRounds "demo" = Some (Ok Sample.twoRoundsAnswer))
    as HrunB by (vm_compute; reflexivity).
  assert (Sample.twoRoundsAnswer !! "ETH" =
          Some [ Sample.package "0xA" "ETH" 1000 "a1";
                 Sample.package "0xB" "ETH" 1000 "b1" ])
    as Hfeed by (vm_compute; reflexivity).
  destruct (responses_hold_one_entry_per_signer 2000 Sample.twoRounds "demo")
    as [HA HB].
  split_and!; [exact HrunA|exact HrunB|exact Hfeed| |].
  - exact (HA None _ _ _ HrunA Hfeed).
  - exact (proj2 (HB _ HrunB)).
Defined.

Lemma empty_window_throws_empty_response_witness :
  Pipeline.eligibleA 2000 [] "demo" None = [] ∧
  DataPackagesService.getDataPackagesFromDbByTimestampOrLatest
    2000 [] "demo" None =
  Throw (HttpException "Data packages response is empty"
                       EMPTY_DATA_PACKAGE_RESPONSE_ERROR_CODE) ∧
  Pipeline.eligibleB 2000 [] "demo" = [] ∧
  DataPackagesService.getLatestDataPackagesFromDbWithSameTimestamp
    2000 [] "demo" =
  Some (Throw (HttpException "Data packages response is empty"
                             EMPTY_DATA_PACKAGE_RESPONSE_ERROR_CODE)) ∧
  DataPackagesService.getLatestDataPackagesFromDbWithSameTimestamp
    2000 Sample.twoRounds "demo" = Some (Ok Sample.twoRoundsAnswer) ∧
  Sample.twoRoundsAnswer ≠ ∅.
Proof.
  assert (DataPackagesService.getLatestDataPackagesFromDbWithSameTimestamp
            2000 Sample.twoRounds "demo" = Some (Ok Sample.twoRoundsAnswer))
    as HrunB by (vm_compute; reflexivity).
  destruct (empty_window_throws_empty_response 2000 [] "demo")
    as (HA & HB & _ & _).
  destruct (empty_window_throws_empty_response 2000 Sample.twoRounds "demo")
    as (_ & _ & _ & HokB).
  split_and!.
  - reflexivity.
  - exact (HA None eq_refl).
  - reflexivity.
  - exact (HB eq_refl).
  - exact HrunB.
  - exact (proj1 (HokB _ HrunB)).
Defined.

Lemma memoized_query_is_single_flight_with_ttl_witness :
  Memoize.entries (Memoize.initial (V := Z)) !! "demo" = None ∧
  Memoize.queriesFor "demo"
    (Memoize.call 0 "demo" (Memoize.initial (V := Z))).1 = 1 ∧
  Memoize.queriesFor "demo"
    (Memoize.callAll [(1%Z, "demo"); (2%Z, "other"); (3%Z, "demo")]
       (Memoize.call 0 "demo" (Memoize.initial (V := Z))).1) = 1.
Proof.
  assert (Memoize.entries (Memoize.initial (V := Z)) !! "demo" = None)
    as Hmiss by reflexivity.
  destruct (memoized_query_is_single_flight_with_ttl
              1000 (Memoize.initial (V := Z)) "demo" 0 (or_introl Hmiss))
    as (computation & _ & _ & Hfirst & Hlater).
  split_and!; [exact Hmiss|exact Hfirst|].
  exact (proj1 (proj2 (Hlater [(1%Z, "demo"); (2%Z, "other"); (3%Z, "demo")]))).
Defined.

Lemma eligibility_is_exact_or_from_cutoff_witness :
  Some 20000%Z = Some 20000%Z ∧ 20000%Z ≠ 0%Z ∧
  (Sample.atCutoff ∈
     Pipeline.eligibleA 200000 [Sample.atCutoff] "demo" (Some 20000%Z) ↔
   Sample.atCutoff ∈ [Sample.atCutoff] ∧
   dataServiceId Sample.atCutoff = "demo" ∧
   timestampMilliseconds Sample.atCutoff = 20000%Z).
Proof.
  assert (20000%Z ≠ 0%Z) as Hne by (intros [=]).
  split_and!; [reflexivity|exact Hne|].
  exact (proj1 (eligibility_is_exact_or_from_cutoff
                  200000 [Sample.atCutoff] "demo" (Some 20000%Z)
                  Sample.atCutoff)
               20000%Z eq_refl Hne).
Defined.

Lemma signature_flag_is_recorded_witness :
  recoverDeserializedSignerAddress (SignerRecovery := Sample.recovery)
    (Sample.received ["ETH"] "") = None ∧
  DataPackagesService.isSignatureValid (H0 := Sample.recovery)
    (Sample.received ["ETH"] "") "0xA" = false.
Proof.
  assert (recoverDeserializedSignerAddress (SignerRecovery := Sample.recovery)
            (Sample.received ["ETH"] "") = None) as Hthrows by reflexivity.
  split; [exact Hthrows|].
  exact (proj1 (proj2 (signature_flag_is_recorded (H0 := Sample.recovery)
                         (Sample.received ["ETH"] "") "0xA" "demo"))
               Hthrows).
Defined.

Lemma stats_cover_exactly_the_nodes_witness :
  ∃ stats,
    NoDup (evmAddress <$>
             DataPackagesService.Object_values (nodes Sample.registry)) ∧
    DataPackagesService.getDataPackagesStats Sample.registry Sample.twoRounds
      {| fromTimestamp := 0; toTimestamp := 7200000 |} = Ok stats ∧
    stats !! "0xC" =
      Some {| stats_dataServiceId := "demo";
              verifiedDataPackagesCount := 0;
              nodeName := "gamma" |} ∧
    size stats = 2.
Proof.
  assert (NoDup (evmAddress <$>
                   DataPackagesService.Object_values (nodes Sample.registry)))
    as Hnd.
  { apply (bool_decide_unpack _). vm_compute. reflexivity. }
  destruct (DataPackagesService.getDataPackagesStats
              Sample.registry Sample.twoRounds
              {| fromTimestamp := 0; toTimestamp := 7200000 |})
    as [stats|e] eqn:Hrun; [|vm_compute in Hrun; discriminate Hrun].
  exists stats.
  destruct (stats_cover_exactly_the_nodes _ _ _ _ Hnd Hrun)
    as (Hentry & _ & _ & Hsize).
  split_and!; [exact Hnd|reflexivity| |exact Hsize].
  refine (Hentry {| evmAddress := "0xC"; node_dataServiceId := "demo";
                    name := "gamma" |} _).
  vm_compute. apply list_elem_of_further, list_elem_of_here.
Defined.


(** ** The further properties on concrete stores *)

#[local] Existing Instance Sample.recovery.
#[local] Existing Instance SampleBatch.lookup.

Lemma strategyA_answer_is_first_of_each_pair_witness :
  DataPackagesService.getDataPackagesFromDbByTimestampOrLatest
    2000 Sample.twoRounds "demo" None = Ok Sample.twoRoundsAnswer ∧
  ((∃ entries, Sample.twoRoundsAnswer !! "ETH" = Some entries ∧
               Sample.package "0xA" "ETH" 2000 "a2" ∈ entries) ↔
   dataFeedId (Sample.package "0xA" "ETH" 2000 "a2") = "ETH" ∧
   ∃ i, list_find
          (λ doc, Pipeline.idOf doc =
                  Pipeline.idOf (Sample.package "0xA" "ETH" 2000 "a2"))
          (Pipeline.eligibleA 2000 Sample.twoRounds "demo" None)
        = Some (i, Sample.package "0xA" "ETH" 2000 "a2")).
Proof.
  assert (DataPackagesService.getDataPackagesFromDbByTimestampOrLatest
            2000 Sample.twoRounds "demo" None = Ok Sample.twoRoundsAnswer)
    as Hrun by (vm_compute; reflexivity).
  split; [exact Hrun|].
  exact (strategyA_answer_is_first_of_each_pair
           2000 Sample.twoRounds "demo" None Sample.twoRoundsAnswer "ETH"
           (Sample.package "0xA" "ETH" 2000 "a2") Hrun).
Defined.


Lemma strategyA_feeds_are_newest_first_witness :
  DataPackagesService.getDataPackagesFromDbByTimestampOrLatest
    2000 Sample.twoRounds "demo" None = Ok Sample.twoRoundsAnswer ∧
  StronglySorted
    (λ entry later,
       (timestampMilliseconds later ≤ timestampMilliseconds entry)%Z)
    [ Sample.package "0xA" "ETH" 1000 "a1";
      Sample.package "0xB" "ETH" 1000 "b1" ].
Proof.
  assert (DataPackagesService.getDataPackagesFromDbByTimestampOrLatest
            2000 Sample.twoRounds "demo" None = Ok Sample.twoRoundsAnswer)
    as Hrun by (vm_compute; reflexivity).
  assert (Sample.twoRoundsAnswer !! "ETH" =
          Some [ Sample.package "0xA" "ETH" 1000 "a1";
                 Sample.package "0xB" "ETH" 1000 "b1" ])
    as Hfeed by (vm_compute; reflexivity).
  split; [exact Hrun|].
  exact (strategyA_feeds_are_newest_first _ _ _ _ _ _ _ Hrun Hfeed).
Defined.

Lemma historical_answer_is_at_the_timestamp_witness :
  1000%Z ≠ 0%Z ∧
  DataPackagesService.getDataPackagesByTimestamp
    2000 Sample.twoRounds "demo" 1000 = Ok Sample.twoRoundsAnswer ∧
  timestampMilliseconds (Sample.package "0xB" "ETH" 1000 "b1") = 1000%Z.
Proof.
  assert (1000%Z ≠ 0%Z) as Hne by (intros [=]).
  assert (DataPackagesService.getDataPackagesByTimestamp
            2000 Sample.twoRounds "demo" 1000 = Ok Sample.twoRoundsAnswer)
    as Hrun by (vm_compute; reflexivity).
  assert (Sample.twoRoundsAnswer !! "ETH" =
          Some [ Sample.package "0xA" "ETH" 1000 "a1";
                 Sample.package "0xB" "ETH" 1000 "b1" ])
    as Hfeed by (vm_compute; reflexivity).
  split_and!; [exact Hne|exact Hrun|].
  refine (proj1 (historical_answer_is_at_the_timestamp
                   2000 Sample.twoRounds "demo" 1000 _ "ETH" _
                   (Sample.package "0xB" "ETH" 1000 "b1") Hne Hrun Hfeed _)).
  apply list_elem_of_further, list_elem_of_here.
Defined.

Lemma strategyB_answer_is_first_of_each_pair_at_timestamp_witness :
  DataPackagesService.getLatestDataPackagesFromDbWithSameTimestamp
    2000 Sample.twoRounds "demo" = Some (Ok Sample.twoRoundsAnswer) ∧
  ∃ g,
    Pipeline.aggregateSameTimestamp 2000 Sample.twoRounds "demo" = [g] ∧
    (2000 - maxAllowedTimestampDelay ≤ ag_id_timestampMilliseconds g)%Z.
Proof.
  assert (DataPackagesService.getLatestDataPackagesFromDbWithSameTimestamp
            2000 Sample.twoRounds "demo" = Some (Ok Sample.twoRoundsAnswer))
    as Hrun by (vm_compute; reflexivity).
  split; [exact Hrun|].
  destruct (strategyB_answer_is_first_of_each_pair_at_timestamp _ _ _ _ Hrun)
    as (g & Hagg & Hcutoff & _).
  exists g. split; [exact Hagg|exact Hcutoff].
Defined.

Lemma strategyB_feeds_are_in_store_order_witness :
  DataPackagesService.getLatestDataPackagesFromDbWithSameTimestamp
    2000 Sample.twoRounds "demo" = Some (Ok Sample.twoRoundsAnswer) ∧
  [ Sample.package "0xA" "ETH" 1000 "a1"; Sample.package "0xB" "ETH" 1000 "b1" ]
    `sublist_of` Sample.twoRounds.
Proof.
  assert (DataPackagesService.getLatestDataPackagesFromDbWithSameTimestamp
            2000 Sample.twoRounds "demo" = Some (Ok Sample.twoRoundsAnswer))
    as Hrun by (vm_compute; reflexivity).
  assert (Sample.twoRoundsAnswer !! "ETH" =
          Some [ Sample.package "0xA" "ETH" 1000 "a1";
                 Sample.package "0xB" "ETH" 1000 "b1" ])
    as Hfeed by (vm_compute; reflexivity).
  split; [exact Hrun|].
  exact (proj2 (strategyB_feeds_are_in_store_order _ _ _ _ _ _ Hrun Hfeed)).
Defined.


Lemma strategyB_is_historical_answer_at_selected_timestamp_witness :
  DataPackagesService.getLatestDataPackagesFromDbWithSameTimestamp
    2000 Sample.twoRounds "demo" = Some (Ok Sample.twoRoundsAnswer) ∧
  Pipeline.aggregateSameTimestamp 2000 Sample.twoRounds "demo"
    = [SampleBatch.selected] ∧
  ag_id_timestampMilliseconds SampleBatch.selected ≠ 0%Z ∧
  ∃ responseA,
    DataPackagesService.getDataPackagesByTimestamp
      9000000 Sample.twoRounds "demo"
      (ag_id_timestampMilliseconds SampleBatch.selected) = Ok responseA ∧
    ∀ feedId,
      option_Forall2 (≡ₚ) (responseA !! feedId)
                     (Sample.twoRoundsAnswer !! feedId).
Proof.
  assert (DataPackagesService.getLatestDataPackagesFromDbWithSameTimestamp
            2000 Sample.twoRounds "demo" = Some (Ok Sample.twoRoundsAnswer))
    as Hrun by (vm_compute; reflexivity).
  assert (Pipeline.aggregateSameTimestamp 2000 Sample.twoRounds "demo"
          = [SampleBatch.selected]) as Hagg by (vm_compute; reflexivity).
  assert (ag_id_timestampMilliseconds SampleBatch.selected ≠ 0%Z) as Hne
    by (intros [=]).
  split_and!; [exact Hrun|exact Hagg|exact Hne|].
  exact (strategyB_is_historical_answer_at_selected_timestamp
           2000 9000000 Sample.twoRounds "demo" _ _ Hrun Hagg Hne).
Defined.

Lemma answers_depend_on_the_service_only_witness :
  filter (λ doc, dataServiceId doc = "demo") Sample.twoRounds =
  filter (λ doc, dataServiceId doc = "demo")
         (SampleBatch.foreign :: Sample.twoRounds) ∧
  DataPackagesService.getLatestDataPackagesFromDbWithSameTimestamp
    2000 Sample.twoRounds "demo" =
  DataPackagesService.getLatestDataPackagesFromDbWithSameTimestamp
    2000 (SampleBatch.foreign :: Sample.twoRounds) "demo".
Proof.
  assert (filter (λ doc, dataServiceId doc = "demo") Sample.twoRounds =
          filter (λ doc, dataServiceId doc = "demo")
                 (SampleBatch.foreign :: Sample.twoRounds))
    as Hsame by (vm_compute; reflexivity).
  split; [exact Hsame|].
  exact (proj2 (answers_depend_on_the_service_only
                  2000 Sample.twoRounds (SampleBatch.foreign :: Sample.twoRounds)
                  "demo" None Hsame)).
Defined.

Lemma stats_entry_is_of_the_last_node_with_the_address_witness :
  ∃ stats,
    DataPackagesService.getDataPackagesStats
      SampleBatch.sharedAddress Sample.twoRounds
      {| fromTimestamp := 0; toTimestamp := 3000 |} = Ok stats ∧
    stats !! "0xA" =
      Some {| stats_dataServiceId := "other";
              verifiedDataPackagesCount := 0;
              nodeName := "beta" |} ∧
    stats !! "0xB" = None.
Proof.
  destruct (DataPackagesService.getDataPackagesStats
              SampleBatch.sharedAddress Sample.twoRounds
              {| fromTimestamp := 0; toTimestamp := 3000 |})
    as [stats|e] eqn:Hrun; [|vm_compute in Hrun; discriminate Hrun].
  exists stats. split_and!; [reflexivity| |].
  - exact (stats_entry_is_of_the_last_node_with_the_address
             _ _ _ _ "0xA" Hrun).
  - exact (stats_entry_is_of_the_last_node_with_the_address
             _ _ _ _ "0xB" Hrun).
Defined.

Lemma stats_counts_add_over_adjacent_windows_witness :
  ∃ whole early late entry,
    (0 - 1 ≤ 1500 ≤ 3000)%Z ∧
    DataPackagesService.getDataPackagesStats Sample.registry Sample.twoRounds
      {| fromTimestamp := 0; toTimestamp := 3000 |} = Ok whole ∧
    DataPackagesService.getDataPackagesStats Sample.registry Sample.twoRounds
      {| fromTimestamp := 0; toTimestamp := 1500 |} = Ok early ∧
    DataPackagesService.getDataPackagesStats Sample.registry Sample.twoRounds
      {| fromTimestamp := 1500 + 1; toTimestamp := 3000 |} = Ok late ∧
    whole !! "0xA" = Some entry ∧
    verifiedDataPackagesCount entry = 3 ∧
    ∃ entryEarly entryLate,
      early !! "0xA" = Some entryEarly ∧
      late !! "0xA" = Some entryLate ∧
      verifiedDataPackagesCount entry =
        verifiedDataPackagesCount entryEarly +
        verifiedDataPackagesCount entryLate.
Proof.
  assert (0 - 1 ≤ 1500 ≤ 3000)%Z as Hmid by lia.
  destruct (DataPackagesService.getDataPackagesStats
              Sample.registry Sample.twoRounds
              {| fromTimestamp := 0; toTimestamp := 3000 |})
    as [whole|e] eqn:Hwhole; [|vm_compute in Hwhole; discriminate Hwhole].
  destruct (DataPackagesService.getDataPackagesStats
              Sample.registry Sample.twoRounds
              {| fromTimestamp := 0; toTimestamp := 1500 |})
    as [early|e] eqn:Hearly; [|vm_compute in Hearly; discriminate Hearly].
  destruct (DataPackagesService.getDataPackagesStats
              Sample.registry Sample.twoRounds
              {| fromTimestamp := 1500 + 1; toTimestamp := 3000 |})
    as [late|e] eqn:Hlate; [|vm_compute in Hlate; discriminate Hlate].
  assert (whole !! "0xA" =
          Some {| stats_dataServiceId := "demo";
                  verifiedDataPackagesCount := 3;
                  nodeName := "alpha" |}) as Hentry.
  { injection Hwhole as <-. vm_compute. reflexivity. }
  eexists whole, early, late, _.
  refine (conj Hmid (conj eq_refl (conj eq_refl (conj eq_refl
            (conj Hentry (conj eq_refl _)))))).
  exact (stats_counts_add_over_adjacent_windows
           _ _ 0 1500 3000 _ _ _ "0xA" _ Hmid Hwhole Hearly Hlate Hentry).
Defined.

Lemma stats_count_no_package_twice_witness :
  ∃ stats,
    NoDup (evmAddress <$>
             DataPackagesService.Object_values (nodes Sample.registry)) ∧
    DataPackagesService.getDataPackagesStats Sample.registry Sample.twoRounds
      {| fromTimestamp := 0; toTimestamp := 3000 |} = Ok stats ∧
    sum_list_with
      (λ node, from_option verifiedDataPackagesCount 0
                 (stats !! evmAddress node))
      (DataPackagesService.Object_values (nodes Sample.registry)) ≤ 4.
Proof.
  assert (NoDup (evmAddress <$>
                   DataPackagesService.Object_values (nodes Sample.registry)))
    as Hnd.
  { apply (bool_decide_unpack _). vm_compute. reflexivity. }
  destruct (DataPackagesService.getDataPackagesStats
              Sample.registry Sample.twoRounds
              {| fromTimestamp := 0; toTimestamp := 3000 |})
    as [stats|e] eqn:Hrun; [|vm_compute in Hrun; discriminate Hrun].
  exists stats. split_and!; [exact Hnd|reflexivity|].
  exact (stats_count_no_package_twice _ _ _ _ Hnd Hrun).
Defined.

